(** * bioedn: the file conversion service [server/python/convert_files.py]

    A shallow embedding of the conversion pipeline (archive extraction,
    per-entry dispatch on the file suffix, FASTQ quality filter, generic
    format prober, cleanup) as functions over an explicit world: the
    directory tree, the files written through an output handle, the logger
    and standard output.  Python exceptions are values of [Exn]; every
    function of the source is a computation [M A] that returns a value or
    raises.

    Outside the repository, and therefore parameters of the development
    (record [Env]): Biopython's [SeqIO.parse], [tarfile], [gzip], the [date]
    command and the rendering of a float with one decimal.

    Modelling conventions:
    - [SeqIO.parse] is an iterator: it yields records and may then raise.
      [Parsed] keeps both, so a loop that writes while it reads has written
      the records that came before the exception.
    - the mean quality [sum / len] is the exact rational.  Python rounds the
      quotient to the nearest double and compares it exactly with the
      integer threshold; the two comparisons agree unless a record has more
      than 2^53 / threshold scores.
    - opening the output file and writing text to it do not fail, and
      nothing is refused for lack of permission.
    - [SeqIO.write(record, handle, "fasta")] refuses a record it cannot
      render, such as a GenBank record without sequence data
      ([SeqIO_write_error]).  The FASTQ and FASTA parsers yield no such
      record; the refusal is modelled where the records come from a trial
      parse of the prober, and there the exception is caught.
    - files written through an output handle are kept apart from the
      directory tree ([outs] and [fs]); the output path is assumed not to
      name an extracted entry.
    - a file is known by the spelling of its path, and there are no
      symbolic links.  Two spellings of one location ([d/out] and
      [./d/out], a relative and an absolute path) are two keys, so a
      statement that rests on a path lying outside a directory asks for
      canonical paths ([canonical]): absolute, without empty, [.] or [..]
      components.
    - [str.lower] is modelled on ASCII letters.  Python also lowers letters
      outside ASCII (U+212A becomes [k]), so a statement that rests on a
      path having none of the suffixes asks for an ASCII path ([is_ascii]). *)

From Stdlib Require Import ZArith QArith Bool List String Ascii DecimalString Lia.
From stdpp Require Import gmap strings.
Import ListNotations.

Local Open Scope string_scope.

(** ** Strings and paths *)

Definition ascii_lower (c : ascii) : ascii :=
  let n := nat_of_ascii c in
  if ((65 <=? n) && (n <=? 90))%nat then ascii_of_nat (n + 32) else c.

(** [str.lower()] *)
Fixpoint lower (s : string) : string :=
  match s with
  | EmptyString => EmptyString
  | String c s' => String (ascii_lower c) (lower s')
  end.

(** [s.endswith(suf)]: some tail of [s] is [suf]. *)
Fixpoint endswith (s suf : string) : bool :=
  String.eqb s suf ||
  match s with
  | EmptyString => false
  | String _ s' => endswith s' suf
  end.

(** [s.endswith((suf1, suf2, ...))] *)
Definition endswith_any (s : string) (sufs : list string) : bool :=
  existsb (endswith s) sufs.

Definition startswith (s pre : string) : bool := String.prefix pre s.

(** [os.path.join(a, b)] for two components. *)
Definition path_join (a b : string) : string :=
  if startswith b "/" then b
  else if String.eqb a "" || endswith a "/" then a ++ b
  else a ++ "/" ++ b.

(** [os.path.basename(p)]: what follows the last slash. *)
Fixpoint basename (p : string) : string :=
  match p with
  | EmptyString => EmptyString
  | String c p' =>
      if existsb (Ascii.eqb "/"%char) (list_ascii_of_string p') then basename p'
      else if Ascii.eqb c "/"%char then p' else p
  end.

(** Drop the slashes at the end of [p], unless [p] is made of slashes only. *)
Fixpoint rstrip_slash (p : string) : string :=
  match p with
  | EmptyString => EmptyString
  | String c p' =>
      if forallb (Ascii.eqb "/"%char) (list_ascii_of_string p') && negb (Ascii.eqb c "/"%char)
      then String c EmptyString
      else String c (rstrip_slash p')
  end.

(** [os.path.dirname(p)]: what precedes the last slash, without its
    trailing slashes unless it is the root. *)
Definition dirname (p : string) : string :=
  let n := String.length p - String.length (basename p) in
  let head := substring 0 n p in
  if forallb (Ascii.eqb "/"%char) (list_ascii_of_string head) then head
  else rstrip_slash head.

(** ** Records, exceptions, the world *)

Inductive Format := fastq | fasta | genbank | embl | swiss.

(** [Bio.SeqRecord]: [phred_quality] is
    [record.letter_annotations['phred_quality']] when that key is there. *)
Record SeqRecord := mkSeqRecord {
  rec_seq : string;
  rec_id : string;
  rec_description : string;
  phred_quality : option (list Z)
}.

Inductive Exn :=
| TarError                       (* tarfile could not open or unpack the archive *)
| BadGzipFile                    (* gzip could not decompress *)
| ParseError (fmt : Format)      (* SeqIO.parse rejected the content *)
| OSError (path : string)        (* open / makedirs / rmtree failed on [path] *)
| ZeroDivisionError
| UnboundLocalError (var : string)
| PlainException (msg : string)  (* raise Exception(msg) *)
| UndefinedSequenceError         (* SeqIO.write on a record without sequence data *)
| SystemExit (code : Z).         (* sys.exit(code); main raises it outside every try block *)

(** What a full pass over [SeqIO.parse(handle, fmt)] gives: the records it
    yields and the exception that ends the iteration, if any. *)
Definition Parsed : Type := list SeqRecord * option Exn.

Inductive Node := Dir | File (content : string).

(** A line group of the output file: a comment line written by the
    orchestrator or a record written by [SeqIO.write(_, _, "fasta")]. *)
Inductive OutItem := Comment (text : string) | Fasta (r : SeqRecord).

(** The calls of [logger], one constructor per call site. *)
Inductive LogEvent :=
| InfoExtracted (tar_path extract_to : string)
| ErrorExtracting (tar_path : string) (e : Exn)
| InfoConvertedFrom (n : nat) (file : string)
| InfoFilteredOut (n : nat)
| ErrorFastq (file : string) (e : Exn)
| InfoDetected (fmt : Format) (file : string)
| WarningUnknownFormat (file : string)
| ErrorProcessingFile (file : string) (e : Exn)
| InfoStarting (tar_path : string)
| InfoProcessingFastq (file : string)
| InfoProcessingFasta (file : string)
| InfoProcessingGenBank (file : string)
| InfoAttemptingText (file : string)
| InfoSkippingUnknown (file : string)
| InfoCompleted
| InfoOutputFile (path : string)
| InfoTotalInOutput (seq_count : nat)
| ErrorConversionFailed (e : Exn)
| InfoBioVersion (v : string)
| ErrorBioNotFound
| ErrorInputNotFound (path : string)
| ErrorNotAnArchive
| InfoMainCompleted.

(** The two [print] calls of [main]. *)
Inductive Printed :=
| PrintSuccess (input_file output_file : string)
| PrintError (e : Exn).

Record World := mkWorld {
  fs : gmap string Node;              (* directories and the files in them *)
  outs : gmap string (list OutItem);  (* files written through an output handle *)
  log : list LogEvent;                (* oldest first *)
  stdout : list Printed
}.

(** The world outside the repository. *)
Record Env := BuildEnv {
  (* tarfile.open(path, 'r:gz') on a file with this content: the members
     (name, directory or file) or the exception *)
  tar_members : string -> Exn + list (string * Node);
  (* gzip.open(path, 'rt').read() *)
  gunzip : string -> Exn + string;
  (* SeqIO.parse(handle, fmt) on a handle that reads this text *)
  SeqIO_parse : Format -> string -> Parsed;
  (* os.popen('date').read().strip() *)
  date_output : string;
  (* f"{x:.1f}" *)
  format_1f : Q -> string;
  (* Bio.__version__, None when the import fails *)
  Bio_version : option string;
  (* SeqIO.write(record, handle, "fasta"): the exception, when the record
     cannot be rendered *)
  SeqIO_write_error : SeqRecord -> option Exn
}.

(** An environment in which [SeqIO.write] renders every record. *)
Definition mkEnv (tar_members : string -> Exn + list (string * Node))
    (gunzip : string -> Exn + string) (SeqIO_parse : Format -> string -> Parsed)
    (date_output : string) (format_1f : Q -> string) (Bio_version : option string) : Env :=
  BuildEnv tar_members gunzip SeqIO_parse date_output format_1f Bio_version
           (fun _ => None).

(** ** Computations that may raise *)

Inductive Res (A : Type) := Ok (a : A) | Raise (e : Exn).
Arguments Ok {A} a.
Arguments Raise {A} e.

Definition M (A : Type) : Type := World -> Res A * World.

Definition ret {A} (a : A) : M A := fun w => (Ok a, w).

Definition bind {A B} (m : M A) (k : A -> M B) : M B :=
  fun w => match m w with
           | (Ok a, w') => k a w'
           | (Raise e, w') => (Raise e, w')
           end.

Definition raise {A} (e : Exn) : M A := fun w => (Raise e, w).

(** [try: m  except Exception as e: h e] *)
Definition try_except {A} (m : M A) (h : Exn -> M A) : M A :=
  fun w => match m w with
           | (Ok a, w') => (Ok a, w')
           | (Raise e, w') => h e w'
           end.

Notation "'do' x <- m ; k" := (bind m (fun x => k))
  (at level 10, x name, m at level 100, k at level 200).
Notation "'run' m ; k" := (bind m (fun _ => k))
  (at level 10, m at level 100, k at level 200).

Definition logger (ev : LogEvent) : M unit :=
  fun w => (Ok tt, mkWorld (fs w) (outs w) (log w ++ [ev]) (stdout w)).

Definition print (line : Printed) : M unit :=
  fun w => (Ok tt, mkWorld (fs w) (outs w) (log w) (stdout w ++ [line])).

Definition set_fs (f : gmap string Node) (w : World) : World :=
  mkWorld f (outs w) (log w) (stdout w).

Definition set_outs (o : gmap string (list OutItem)) (w : World) : World :=
  mkWorld (fs w) o (log w) (stdout w).

(** ** The operating system *)

Definition os_path_exists (p : string) (w : World) : bool :=
  match fs w !! p, outs w !! p with
  | None, None => false
  | _, _ => true
  end.

(** Entries of the working directory live in [fs]. *)
Definition os_path_isfile (p : string) (w : World) : bool :=
  match fs w !! p with
  | Some (File _) => true
  | _ => false
  end.

(** [os.makedirs(p, exist_ok=True)] *)
Definition os_makedirs_exist_ok (p : string) : M unit :=
  fun w => match fs w !! p, outs w !! p with
           | Some Dir, _ => (Ok tt, w)
           | None, None => (Ok tt, set_fs (<[p := Dir]> (fs w)) w)
           | _, _ => (Raise (OSError p), w)
           end.

(** The proper ancestors of [p], nearest last: [a] and [a/b] for [a/b/c]. *)
Fixpoint ancestors_from (pre p : string) : list string :=
  match p with
  | EmptyString => []
  | String c p' =>
      (if Ascii.eqb c "/"%char && negb (String.eqb pre "") then [pre] else [])
        ++ ancestors_from (pre ++ String c EmptyString) p'
  end.

Definition ancestors (p : string) : list string := ancestors_from "" p.

Definition is_directory (p : string) (w : World) : bool :=
  match fs w !! p with
  | Some Dir => true
  | _ => false
  end.

(** [os.makedirs(p)]: the missing ancestors are made as well.  The call
    fails when [p] is there already, or when an ancestor is there and is
    not a directory. *)
Definition os_makedirs (p : string) : M unit :=
  fun w =>
    if os_path_exists p w then (Raise (OSError p), w)
    else
      match List.filter (fun a => os_path_exists a w && negb (is_directory a w))
                        (ancestors p) with
      | a :: _ => (Raise (OSError a), w)
      | [] => (Ok tt, set_fs (fold_right (fun a f => <[a := Dir]> f) (fs w)
                                         (p :: ancestors p)) w)
      end.

(** [q] is [p] or lies below it. *)
Definition under (p q : string) : bool :=
  String.eqb q p || startswith q (p ++ "/").

Definition remove_tree {V} (p : string) (m : gmap string V) : gmap string V :=
  filter (fun kv => under p (fst kv) = false) m.

(** [shutil.rmtree(p)] *)
Definition shutil_rmtree (p : string) : M unit :=
  fun w => match fs w !! p with
           | Some Dir =>
               (Ok tt, mkWorld (remove_tree p (fs w)) (remove_tree p (outs w))
                               (log w) (stdout w))
           | _ => (Raise (OSError p), w)
           end.

(** [open(p, 'r')], read in full. *)
Definition read_file (p : string) : M string :=
  fun w => match fs w !! p with
           | Some (File c) => (Ok c, w)
           | _ => (Raise (OSError p), w)
           end.

(** [open(p, 'a')]: the file is created when it is not there. *)
Definition open_append (p : string) : M unit :=
  fun w => (Ok tt, set_outs (<[p := default [] (outs w !! p)]> (outs w)) w).

(** [open(p, 'w')]: the file is created or emptied. *)
Definition open_truncate (p : string) : M unit :=
  fun w => (Ok tt, set_outs (<[p := []]> (outs w)) w).

(** A write on the handle opened on [p]. *)
Definition write_item (p : string) (x : OutItem) : M unit :=
  fun w => (Ok tt, set_outs (<[p := (default [] (outs w !! p) ++ [x])%list]> (outs w)) w).

(** [for x in l: s = body x s] *)
Fixpoint for_each {A S} (body : A -> S -> M S) (l : list A) (s : S) : M S :=
  match l with
  | [] => ret s
  | x :: l' => do s' <- body x s; for_each body l' s'
  end.

(** [for record in SeqIO.parse(...): s = body record s]: the records the
    parser yields, then the exception it ends with. *)
Definition for_parsed {S} (body : SeqRecord -> S -> M S) (p : Parsed) (s : S) : M S :=
  do s' <- for_each body (fst p) s;
  match snd p with
  | Some e => raise e
  | None => ret s'
  end.

(** ** The functions of [convert_files.py] *)

Section ConvertFiles.

Variable E : Env.

(** [tar.extractall(extract_to)] *)
Definition extractall (extract_to : string) (members : list (string * Node))
    (f : gmap string Node) : gmap string Node :=
  fold_left (fun acc m => <[path_join extract_to (fst m) := snd m]> acc) members f.

Definition extract_tar_gz (tar_path extract_to : string) : M (list string) :=
  try_except
    (do c <- read_file tar_path;
     match tar_members E c with
     | inl e => raise e
     | inr members =>
         run (fun w => (Ok tt, set_fs (extractall extract_to members (fs w)) w));
         run logger (InfoExtracted tar_path extract_to);
         ret (map (fun m => path_join extract_to (fst m)) members)
     end)
    (fun e => run logger (ErrorExtracting tar_path e); raise e).

(** The handle the converters read from: [gzip.open(file, 'rt')] when
    [file] (as it is spelled) ends in [.gz], [open(file, 'r')] otherwise.
    Both fail at once on a missing file; a decompression error shows at the
    first read. *)
Definition open_text (file : string) : M (Exn + string) :=
  do c <- read_file file;
  ret (if endswith file ".gz" then gunzip E c else inr c).

(** [SeqIO.parse(handle, fmt)] *)
Definition parse_handle (fmt : Format) (h : Exn + string) : Parsed :=
  match h with
  | inl e => ([], Some e)
  | inr text => SeqIO_parse E fmt text
  end.

Definition sum (l : list Z) : Z := fold_right Z.add 0%Z l.

(** [sum(l) / len(l)]; [None] is the division by zero. *)
Definition average (l : list Z) : option Q :=
  match l with
  | [] => None
  | _ => Some (sum l # Pos.of_nat (length l))
  end.

Definition default_quality_threshold : Z := 20.

(** The body of the loop of [process_fastq_to_fasta]; the state is
    [(sequences_written, sequences_filtered)]. *)
Definition fastq_record (output_fasta : string) (quality_threshold : Z)
    (record : SeqRecord) (n : nat * nat) : M (nat * nat) :=
  match phred_quality record with
  | Some quals =>
      match average quals with
      | None => raise ZeroDivisionError
      | Some avg_quality =>
          if Qle_bool (inject_Z quality_threshold) avg_quality then
            run write_item output_fasta
                  (Fasta (mkSeqRecord (rec_seq record) (rec_id record)
                            ("avg_qual=" ++ format_1f E avg_quality ++ " "
                               ++ rec_description record) None));
            ret (S (fst n), snd n)
          else ret (fst n, S (snd n))
      end
  | None =>
      run write_item output_fasta
            (Fasta (mkSeqRecord (rec_seq record) (rec_id record)
                      (rec_description record) None));
      ret (S (fst n), snd n)
  end.

Definition process_fastq_to_fasta (fastq_file output_fasta : string)
    (quality_threshold : Z) : M unit :=
  try_except
    (do handle <- open_text fastq_file;
     run open_append output_fasta;
     do n <- for_parsed (fastq_record output_fasta quality_threshold)
               (parse_handle fastq handle) (0, 0)%nat;
     run logger (InfoConvertedFrom (fst n) fastq_file);
     logger (InfoFilteredOut (snd n)))
    (fun e => run logger (ErrorFastq fastq_file e); raise e).

Definition formats_to_try : list Format := [fasta; genbank; embl; swiss].

(** [SeqIO.write(record, output_handle, "fasta")] on a record of a trial
    parse. *)
Definition SeqIO_write (output_fasta : string) (record : SeqRecord) : M unit :=
  match SeqIO_write_error E record with
  | Some e => raise e
  | None => write_item output_fasta (Fasta record)
  end.

(** Lines 96 to 98, the loop that writes the records of a trial parse.
    [sequences_written] is a variable of the function: when a write raises,
    it keeps the count of the writes before. *)
Fixpoint write_sequences (output_fasta : string) (sequences : list SeqRecord)
    (sequences_written : nat) (w : World) : option Exn * nat * World :=
  match sequences with
  | [] => (None, sequences_written, w)
  | record :: rest =>
      match SeqIO_write output_fasta record w with
      | (Ok _, w') => write_sequences output_fasta rest (S sequences_written) w'
      | (Raise e, w') => (Some e, sequences_written, w')
      end
  end.

(** How the body of the inner [try] ends for one format: at the [break],
    at its end without a record, or with an exception, which the bare
    [except] catches. *)
Inductive Trial := Break | NoRecord | Caught (e : Exn).

(** The body of the inner [try] of [process_generic_sequences] for one
    format (lines 90 to 99), with [sequences_written] and the world as it
    leaves them. *)
Definition try_format (input_file output_fasta : string) (fmt : Format)
    (sequences_written : nat) (w : World) : Trial * nat * World :=
  match read_file input_file w with
  | (Raise e, w1) => (Caught e, sequences_written, w1)
  | (Ok c, w1) =>
      match SeqIO_parse E fmt c with
      | (_, Some e) => (Caught e, sequences_written, w1)
      | ([], None) => (NoRecord, sequences_written, w1)
      | (sequences, None) =>
          let w2 := snd (logger (InfoDetected fmt input_file) w1) in
          let w3 := snd (open_append output_fasta w2) in
          match write_sequences output_fasta sequences sequences_written w3 with
          | (None, n, w4) => (Break, n, w4)
          | (Some e, n, w4) => (Caught e, n, w4)
          end
      end
  end.

(** [for fmt in formats: try: ... break  except: continue] *)
Fixpoint probe (input_file output_fasta : string) (formats : list Format)
    (sequences_written : nat) : M nat :=
  match formats with
  | [] => ret sequences_written
  | fmt :: rest =>
      fun w =>
        match try_format input_file output_fasta fmt sequences_written w with
        | (Break, n, w') => (Ok n, w')
        | (NoRecord, n, w') => probe input_file output_fasta rest n w'
        | (Caught _, n, w') => probe input_file output_fasta rest n w'
        end
  end.

Definition process_generic_sequences (input_file output_fasta : string) : M unit :=
  try_except
    (do sequences_written <- probe input_file output_fasta formats_to_try 0%nat;
     if (sequences_written =? 0)%nat then logger (WarningUnknownFormat input_file)
     else logger (InfoConvertedFrom sequences_written input_file))
    (fun e => run logger (ErrorProcessingFile input_file e); raise e).


Definition extract_dir_of (input_tar_path : string) : string :=
  input_tar_path ++ "_extracted".

(** The body of the loop of [convert_tar_to_fasta] for one extracted path;
    the state is [total_sequences].  The FASTQ converter is called with two
    arguments, so its threshold is the default of the parameter. *)
Definition process_entry (output_fasta_path file_path : string)
    (total_sequences : nat) : M nat :=
  fun w =>
    if os_path_isfile file_path w then
      let file_lower := lower file_path in
      if endswith_any file_lower [".fastq"; ".fastq.gz"; ".fq"; ".fq.gz"] then
        (run logger (InfoProcessingFastq file_path);
         run process_fastq_to_fasta file_path output_fasta_path default_quality_threshold;
         ret total_sequences) w
      else if endswith_any file_lower [".fasta"; ".fasta.gz"; ".fa"; ".fa.gz"; ".fas"] then
        (run logger (InfoProcessingFasta file_path);
         do handle <- open_text file_path;
         run open_append output_fasta_path;
         for_parsed (fun record n => run write_item output_fasta_path (Fasta record); ret (S n))
           (parse_handle fasta handle) total_sequences) w
      else if endswith_any file_lower [".gb"; ".gbk"; ".genbank"] then
        (run logger (InfoProcessingGenBank file_path);
         run process_generic_sequences file_path output_fasta_path;
         ret total_sequences) w
      else if endswith file_lower ".txt" then
        (run logger (InfoAttemptingText file_path);
         run process_generic_sequences file_path output_fasta_path;
         ret total_sequences) w
      else
        (run logger (InfoSkippingUnknown file_path); ret total_sequences) w
    else (Ok total_sequences, w).

(** Number of lines of the output that start with [>]: one per record. *)
Definition count_headers (items : list OutItem) : nat :=
  length (List.filter (fun x => match x with Fasta _ => true | Comment _ => false end) items).

(** Lines 115 to 122 of the [try] block: the working directory and the
    extraction; the value is [extracted_files]. *)
Definition convert_extract (input_tar_path : string) : M (list string) :=
  let extract_dir := extract_dir_of input_tar_path in
  run os_makedirs_exist_ok extract_dir;
  run logger (InfoStarting input_tar_path);
  extract_tar_gz input_tar_path extract_dir.

(** Lines 124 to 165: the header of the output and the loop over the
    extracted paths; the value is [total_sequences]. *)
Definition convert_entries (input_tar_path output_fasta_path : string)
    (extracted_files : list string) : M nat :=
  run open_truncate output_fasta_path;
  run write_item output_fasta_path
        (Comment ("# Converted from " ++ basename input_tar_path));
  run write_item output_fasta_path
        (Comment ("# Conversion timestamp: " ++ date_output E));
  for_each (process_entry output_fasta_path) extracted_files 0%nat.

(** Everything before [import shutil]. *)
Definition convert_before_import (input_tar_path output_fasta_path : string) : M nat :=
  do extracted_files <- convert_extract input_tar_path;
  convert_entries input_tar_path output_fasta_path extracted_files.

(** Lines 167 to 182: [import shutil] has bound the name. *)
Definition convert_after_import (input_tar_path output_fasta_path : string) : M unit :=
  run shutil_rmtree (extract_dir_of input_tar_path);
  fun w =>
    if os_path_exists output_fasta_path w then
      (run logger InfoCompleted;
       run logger (InfoOutputFile output_fasta_path);
       logger (InfoTotalInOutput
                 (count_headers (default [] (outs w !! output_fasta_path))))) w
    else (Raise (PlainException "Output file was not created"), w).

(** The [except Exception as e] clause.  [shutil] is a local name of the
    function, bound by the [import] statement inside the [try] block:
    [shutil_bound] tells whether the block got that far. *)
Definition convert_handler (input_tar_path : string) (shutil_bound : bool)
    (e : Exn) : M unit :=
  run logger (ErrorConversionFailed e);
  run (fun w =>
         if os_path_exists (extract_dir_of input_tar_path) w then
           if shutil_bound then shutil_rmtree (extract_dir_of input_tar_path) w
           else (Raise (UnboundLocalError "shutil"), w)
         else (Ok tt, w));
  raise e.

Definition convert_tar_to_fasta (input_tar_path output_fasta_path : string) : M unit :=
  fun w =>
    match convert_before_import input_tar_path output_fasta_path w with
    | (Raise e, w1) => convert_handler input_tar_path false e w1
    | (Ok _, w1) =>
        match convert_after_import input_tar_path output_fasta_path w1 with
        | (Raise e, w2) => convert_handler input_tar_path true e w2
        | (Ok _, w2) => (Ok tt, w2)
        end
    end.

(** The parsed command line. *)
Record Args := mkArgs {
  input_file : string;
  output_file : string;
  quality_threshold : Z   (* --quality-threshold, type=int, default=20 *)
}.

Definition validate_dependencies : M bool :=
  match Bio_version E with
  | Some v => run logger (InfoBioVersion v); ret true
  | None => run logger ErrorBioNotFound; ret false
  end.

Definition sys_exit (code : Z) : M unit := raise (SystemExit code).

(** [main()] after [parser.parse_args()].  [args.quality_threshold] is
    parsed and not read again. *)
Definition main (args : Args) : M unit :=
  do ok <- validate_dependencies;
  run (if ok then ret tt else sys_exit 1);
  run (fun w =>
         if os_path_exists (input_file args) w then (Ok tt, w)
         else (run logger (ErrorInputNotFound (input_file args)); sys_exit 1) w);
  run (if endswith_any (lower (input_file args)) [".tar.gz"; ".tgz"] then ret tt
       else run logger ErrorNotAnArchive; sys_exit 1);
  let output_dir := dirname (output_file args) in
  run (fun w =>
         if negb (String.eqb output_dir "") && negb (os_path_exists output_dir w)
         then os_makedirs output_dir w else (Ok tt, w));
  try_except
    (run convert_tar_to_fasta (input_file args) (output_file args);
     run logger InfoMainCompleted;
     print (PrintSuccess (input_file args) (output_file args)))
    (fun e =>
       run logger (ErrorConversionFailed e);
       run print (PrintError e);
       sys_exit 1).

End ConvertFiles.

(** ** Notions used in the statements

    The category of an entry, the quality filter as a predicate, the record
    written for a read, what a trial parse delivers to the prober, and the
    side conditions on paths. *)

Inductive Category := Reads | Assembled | Curated | Text | Unknown.

(** The [if]/[elif] chain of [convert_tar_to_fasta], read as a function of
    the path. *)
Definition classify (file_path : string) : Category :=
  let file_lower := lower file_path in
  if endswith_any file_lower [".fastq"; ".fastq.gz"; ".fq"; ".fq.gz"] then Reads
  else if endswith_any file_lower [".fasta"; ".fasta.gz"; ".fa"; ".fa.gz"; ".fas"] then Assembled
  else if endswith_any file_lower [".gb"; ".gbk"; ".genbank"] then Curated
  else if endswith file_lower ".txt" then Text
  else Unknown.

(** The quality filter as a predicate on records with a mean. *)
Definition passes (quality_threshold : Z) (quals : list Z) : bool :=
  match average quals with
  | Some avg_quality => Qle_bool (inject_Z quality_threshold) avg_quality
  | None => false
  end.

(** The quality filter on a record: a record without scores passes. *)
Definition accepts (quality_threshold : Z) (record : SeqRecord) : bool :=
  match phred_quality record with
  | Some quals => passes quality_threshold quals
  | None => true
  end.

(** The mean of the scores of [record] exists: either there are no scores
    or there is at least one. *)
Definition has_mean (record : SeqRecord) : bool :=
  match phred_quality record with
  | Some [] => false
  | _ => true
  end.

(** The record [process_fastq_to_fasta] writes for an accepted read. *)
Definition fasta_of_read (E : Env) (record : SeqRecord) : SeqRecord :=
  match phred_quality record with
  | Some quals =>
      mkSeqRecord (rec_seq record) (rec_id record)
        ("avg_qual=" ++ format_1f E (default 0%Q (average quals)) ++ " "
           ++ rec_description record) None
  | None =>
      mkSeqRecord (rec_seq record) (rec_id record) (rec_description record) None
  end.

(** What the trial parse of one candidate format delivers to the prober:
    the records of a complete parse, nothing when the file cannot be read
    or the parser raises. *)
Definition candidate_records (E : Env) (node : option Node) (fmt : Format) : list SeqRecord :=
  match node with
  | Some (File c) =>
      match SeqIO_parse E fmt c with
      | (records, None) => records
      | (_, Some _) => []
      end
  | _ => []
  end.

(** [SeqIO.write] renders every record of the list. *)
Definition writable (E : Env) (records : list SeqRecord) : bool :=
  forallb (fun record => match SeqIO_write_error E record with
                         | None => true
                         | Some _ => false
                         end) records.




(** Every character of the string is an ASCII character; on such strings
    [lower] is Python's [str.lower]. *)
Definition is_ascii (s : string) : bool :=
  forallb (fun c => (nat_of_ascii c <? 128)%nat) (list_ascii_of_string s).

(** What the parser makes of the file [p] with content [c], read the way
    the converters open it. *)
Definition decoded (E : Env) (fmt : Format) (p c : string) : Parsed :=
  parse_handle E fmt (if endswith p ".gz" then gunzip E c else inr c).

(** The exception that ends the decoding of an entry under the format of
    its category, if any.  Entries handed to the prober have none. *)
Definition decode_error (E : Env) (p c : string) : option Exn :=
  match classify p with
  | Reads => snd (decoded E fastq p c)
  | Assembled => snd (decoded E fasta p c)
  | _ => None
  end.

(** ** A sample environment

    A small stand-in for Biopython, [tarfile] and [gzip], used to run the
    functions above on concrete archives.  File contents are short tags;
    the tables below say what each library call makes of them. *)

Module Sample.

Definition read (id : string) (quals : list Z) : SeqRecord :=
  mkSeqRecord "ACGT" id id (Some quals).

Definition contig (id : string) : SeqRecord :=
  mkSeqRecord "ACGTACGT" id id None.

(** A GenBank record that has its annotations and no sequence data. *)
Definition locus (id : string) : SeqRecord :=
  mkSeqRecord "" id id None.

(** Ten reads: six of mean quality 20 or more (the first of mean exactly
    20), four below. *)
Definition ten_reads : list SeqRecord :=
  [ read "r01" [20; 20; 20; 20]%Z; read "r02" [10; 10; 12; 15]%Z;
    read "r03" [40; 40; 40; 40]%Z; read "r04" [19; 19; 19; 22]%Z;
    read "r05" [25; 25; 25; 25]%Z; read "r06" [30; 10; 30; 10]%Z;
    read "r07" [2; 2; 2; 2]%Z;     read "r08" [21; 19; 20; 21]%Z;
    read "r09" [0; 0; 0; 79]%Z;    read "r10" [35; 36; 37; 38]%Z ].

Definition parse (fmt : Format) (text : string) : Parsed :=
  match fmt with
  | fastq =>
      if String.eqb text "ten reads" then (ten_reads, None)
      else if String.eqb text "one read of mean 25" then ([read "q25" [25; 25; 25; 25]%Z], None)
      else if String.eqb text "an empty read" then ([read "r0" []], None)
      else ([], Some (ParseError fastq))
  | fasta =>
      if String.eqb text "two contigs" then ([contig "c1"; contig "c2"], None)
      else if String.eqb text "fasta and genbank" then ([contig "f1"], None)
      else ([], Some (ParseError fasta))
  | genbank =>
      if String.eqb text "fasta and genbank" then ([contig "g1"; contig "g2"; contig "g3"], None)
      else if String.eqb text "a locus without sequence" then ([locus "L1"], None)
      else if String.eqb text "a contig and a locus without sequence" then
        ([contig "g1"; locus "L2"; contig "g3"], None)
      else ([], None)
  | embl => ([], None)
  | swiss => ([], Some (ParseError swiss))
  end.

(** A compressed file is tagged [gz:]. *)
Definition decompress (c : string) : Exn + string :=
  if startswith c "gz:" then inr (substring 3 (String.length c - 3) c)
  else inl BadGzipFile.

Definition file (name content : string) : string * Node := (name, File content).

Definition members (c : string) : Exn + list (string * Node) :=
  if String.eqb c "tar: ten reads" then inr [file "reads.fastq" "ten reads"]
  else if String.eqb c "tar: corrupt then valid" then
    inr [file "bad.fastq" "not a fastq file"; file "reads.fastq" "ten reads"]
  else if String.eqb c "tar: valid then corrupt" then
    inr [file "reads.fastq" "ten reads"; file "bad.fastq" "not a fastq file"]
  else if String.eqb c "tar: one read of mean 25" then
    inr [file "sample.fq" "one read of mean 25"]
  else if String.eqb c "tar: an empty read" then inr [file "trimmed.fastq" "an empty read"]
  else if String.eqb c "tar: upper case gz" then inr [file "CONTIGS.FASTA.GZ" "gz:two contigs"]
  else if String.eqb c "tar: lower case gz" then inr [file "contigs.fasta.gz" "gz:two contigs"]
  else if String.eqb c "tar: unparsable text" then
    inr [("notes", Dir); file "notes/readme.txt" "plain words"]
  else if String.eqb c "tar: empty" then inr []
  else inl TarError.

Definition show (z : Z) : string := NilZero.string_of_int (Z.to_int z).

(** One decimal, ties to even: what [f"{x:.1f}"] prints for the means of
    the reads above. *)
Definition one_decimal (x : Q) : string :=
  let n := (10 * Qnum x)%Z in
  let d := Zpos (Qden x) in
  let q := (n / d)%Z in
  let r := (n mod d)%Z in
  let tenths := if (2 * r <? d)%Z then q
                else if (d <? 2 * r)%Z then (q + 1)%Z
                else if Z.even q then q else (q + 1)%Z in
  show (tenths / 10) ++ "." ++ show (tenths mod 10).

Definition env : Env :=
  mkEnv members decompress parse "Tue Nov  3 12:00:00 UTC 2026"
        one_decimal (Some "1.83").

(** The same libraries, with a [SeqIO.write] that refuses the records
    without sequence data. *)
Definition strict_env : Env :=
  BuildEnv members decompress parse "Tue Nov  3 12:00:00 UTC 2026"
           one_decimal (Some "1.83")
           (fun record => if String.eqb (rec_seq record) "" then Some UndefinedSequenceError
                          else None).

(** A disk that holds one archive and nothing else. *)
Definition disk (tar_path content : string) : World :=
  mkWorld {[ tar_path := File content ]} ∅ [] [].

(** The same, with an output file left by an earlier run. *)
Definition disk_with_output (tar_path content out : string) (old : list OutItem) : World :=
  mkWorld {[ tar_path := File content ]} {[ out := old ]} [] [].

End Sample.


(** ** Frame properties: what a computation leaves alone *)

Definition keeps {A X} (proj : World -> X) (m : M A) : Prop :=
  forall w, proj (snd (m w)) = proj w.

Section Frame.

Context {X : Type} (proj : World -> X).

Lemma keeps_ret {A} (a : A) : keeps proj (ret a).
Proof. intros w. reflexivity. Qed.

Lemma keeps_raise {A} (e : Exn) : keeps proj (@raise A e).
Proof. intros w. reflexivity. Qed.

Lemma keeps_bind {A B} (m : M A) (k : A -> M B) :
  keeps proj m -> (forall a, keeps proj (k a)) -> keeps proj (bind m k).
Proof.
  intros Hm Hk w. unfold bind. specialize (Hm w).
  destruct (m w) as [[a | e] w1]; simpl in *.
  - rewrite Hk. exact Hm.
  - exact Hm.
Qed.

Lemma keeps_try_except {A} (m : M A) (h : Exn -> M A) :
  keeps proj m -> (forall e, keeps proj (h e)) -> keeps proj (try_except m h).
Proof.
  intros Hm Hh w. unfold try_except. specialize (Hm w).
  destruct (m w) as [[a | e] w1]; simpl in *.
  - exact Hm.
  - rewrite Hh. exact Hm.
Qed.

Lemma keeps_for_each {A S} (body : A -> S -> M S) (l : list A) (s : S) :
  (forall x s', keeps proj (body x s')) -> keeps proj (for_each body l s).
Proof.
  intros Hb. revert s. induction l as [| x l IH]; intros s; simpl.
  - apply keeps_ret.
  - apply keeps_bind; [apply Hb | exact IH].
Qed.

Lemma keeps_for_parsed {S} (body : SeqRecord -> S -> M S) (p : Parsed) (s : S) :
  (forall x s', keeps proj (body x s')) -> keeps proj (for_parsed body p s).
Proof.
  intros Hb. unfold for_parsed. apply keeps_bind.
  - apply keeps_for_each, Hb.
  - intros a. destruct (snd p); [apply keeps_raise | apply keeps_ret].
Qed.

End Frame.

Lemma keeps_fs_logger ev : keeps fs (logger ev).
Proof. intros w. reflexivity. Qed.

Lemma keeps_outs_logger ev : keeps outs (logger ev).
Proof. intros w. reflexivity. Qed.

Lemma keeps_fs_write_item p x : keeps fs (write_item p x).
Proof. intros w. reflexivity. Qed.

Lemma keeps_fs_open_append p : keeps fs (open_append p).
Proof. intros w. reflexivity. Qed.

Lemma keeps_fs_open_truncate p : keeps fs (open_truncate p).
Proof. intros w. reflexivity. Qed.

Lemma keeps_read_file {X} (proj : World -> X) p : keeps proj (read_file p).
Proof. intros w. unfold read_file. destruct (fs w !! p) as [[| c] |]; reflexivity. Qed.

Lemma keeps_outs_makedirs p : keeps outs (os_makedirs_exist_ok p).
Proof.
  intros w. unfold os_makedirs_exist_ok.
  destruct (fs w !! p) as [[| c] |]; destruct (outs w !! p); reflexivity.
Qed.

Create HintDb frame.
#[export] Hint Resolve keeps_ret keeps_raise keeps_fs_logger keeps_outs_logger
  keeps_fs_write_item keeps_fs_open_append keeps_fs_open_truncate
  keeps_read_file keeps_outs_makedirs : frame.

Ltac frame :=
  repeat first
    [ solve [auto with frame]
    | apply keeps_for_parsed; intros ? ?
    | apply keeps_for_each; intros ? ?
    | apply keeps_bind; [| intros ?]
    | apply keeps_try_except; [| intros ?]
    | match goal with
      | |- keeps _ (match ?x with _ => _ end) => destruct x
      end ].

(** ** The converters leave the directory tree alone *)

(** What holds across a log call, the opening of the output for appending
    and a write on it, holds across the prober, however its trials end. *)
Section ProberInvariant.

Variable E : Env.
Variable R : World -> World -> Prop.
Variables input out : string.

Hypothesis R_refl : forall w, R w w.
Hypothesis R_trans : forall w1 w2 w3, R w1 w2 -> R w2 w3 -> R w1 w3.
Hypothesis R_logger : forall ev w, R w (snd (logger ev w)).
Hypothesis R_open : forall w, R w (snd (open_append out w)).
Hypothesis R_write : forall record w, R w (snd (write_item out (Fasta record) w)).

Lemma write_sequences_invariant sequences n w :
  R w (snd (write_sequences E out sequences n w)).
Proof.
  revert n w. induction sequences as [| record rest IH]; intros n w.
  - apply R_refl.
  - cbn [write_sequences]. unfold SeqIO_write.
    destruct (SeqIO_write_error E record) as [e |].
    + apply R_refl.
    + change (write_item out (Fasta record) w)
        with (@Ok unit tt, snd (write_item out (Fasta record) w)).
      cbv beta iota. eapply R_trans; [apply R_write | apply IH].
Qed.

Lemma try_format_invariant fmt n w :
  R w (snd (try_format E input out fmt n w)).
Proof.
  unfold try_format, read_file.
  destruct (fs w !! input) as [[| c] |]; try apply R_refl.
  destruct (SeqIO_parse E fmt c) as [[| r records] [e |]]; try apply R_refl.
  cbv zeta.
  pose proof (write_sequences_invariant (r :: records) n
                (snd (open_append out (snd (logger (InfoDetected fmt input) w))))) as H.
  destruct (write_sequences E out (r :: records) n _) as [[[e |] m] w4];
    cbn [snd] in *;
    (eapply R_trans; [apply R_logger |]; eapply R_trans; [apply R_open | exact H]).
Qed.

Lemma probe_invariant formats n w :
  R w (snd (probe E input out formats n w)).
Proof.
  revert n w. induction formats as [| fmt rest IH]; intros n w.
  - apply R_refl.
  - cbn [probe]. pose proof (try_format_invariant fmt n w) as H.
    destruct (try_format E input out fmt n w) as [[[| | e] m] w1]; cbn [snd] in *.
    + exact H.
    + eapply R_trans; [exact H | apply IH].
    + eapply R_trans; [exact H | apply IH].
Qed.

End ProberInvariant.

Section Converters.

Variable E : Env.

Lemma keeps_fs_fastq_record out t record n : keeps fs (fastq_record E out t record n).
Proof.
  unfold fastq_record. destruct (phred_quality record) as [quals |]; [| frame].
  destruct (average quals) as [avg |]; [| frame].
  destruct (Qle_bool _ _); frame.
Qed.
#[local] Hint Resolve keeps_fs_fastq_record : frame.

Lemma keeps_fs_open_text file : keeps fs (open_text E file).
Proof. unfold open_text. frame. Qed.
#[local] Hint Resolve keeps_fs_open_text : frame.

Lemma keeps_fs_process_fastq file out t : keeps fs (process_fastq_to_fasta E file out t).
Proof.
  unfold process_fastq_to_fasta. frame.
Qed.
#[local] Hint Resolve keeps_fs_process_fastq : frame.

Lemma keeps_fs_probe input out formats n : keeps fs (probe E input out formats n).
Proof.
  intros w.
  apply (probe_invariant E (fun w1 w2 => fs w2 = fs w1) input out); try reflexivity.
  intros w1 w2 w3 H12 H23. congruence.
Qed.
#[local] Hint Resolve keeps_fs_probe : frame.

Lemma keeps_fs_process_generic input out : keeps fs (process_generic_sequences E input out).
Proof.
  unfold process_generic_sequences. frame.
Qed.
#[local] Hint Resolve keeps_fs_process_generic : frame.

Lemma keeps_fs_process_entry out file total : keeps fs (process_entry E out file total).
Proof.
  intros w. unfold process_entry.
  destruct (os_path_isfile file w); [| reflexivity].
  repeat match goal with
         | |- context [if ?b then _ else _] => destruct b
         end;
    match goal with
    | |- fs (snd (?m w)) = fs w => revert w; change (keeps fs m)
    end; frame.
Qed.
#[local] Hint Resolve keeps_fs_process_entry : frame.

Lemma keeps_fs_convert_entries tar out files : keeps fs (convert_entries E tar out files).
Proof. unfold convert_entries. frame. Qed.
#[local] Hint Resolve keeps_fs_convert_entries : frame.

(** The extraction does not touch the files written through an output
    handle. *)
Lemma keeps_outs_extract tar dir : keeps outs (extract_tar_gz E tar dir).
Proof.
  unfold extract_tar_gz. frame.
  intros w. reflexivity.
Qed.
#[local] Hint Resolve keeps_outs_extract : frame.

Lemma keeps_outs_convert_extract tar : keeps outs (convert_extract E tar).
Proof. unfold convert_extract. frame. Qed.
#[local] Hint Resolve keeps_outs_convert_extract : frame.

End Converters.

Lemma world_eq w1 w2 :
  fs w1 = fs w2 -> outs w1 = outs w2 -> log w1 = log w2 -> stdout w1 = stdout w2 ->
  w1 = w2.
Proof. destruct w1, w2; simpl; intros; subst; reflexivity. Qed.

(** ** Writing records *)

Section Writing.

Variable E : Env.

(** The loop that copies records to the output appends them in order and
    counts them. *)
Lemma write_all out records n w :
  for_each (fun record n => run write_item out (Fasta record); ret (S n)) records n w =
    (Ok (n + length records)%nat,
     match records with
     | [] => w
     | _ => set_outs (<[out := (default [] (outs w !! out) ++ map Fasta records)%list]> (outs w)) w
     end).
Proof.
  revert n w. induction records as [| r records IH]; intros n w; simpl.
  - unfold ret. rewrite Nat.add_0_r. reflexivity.
  - unfold bind at 1. unfold bind at 1. simpl. unfold ret at 1.
    rewrite IH. f_equal; [f_equal; lia |].
    destruct records as [| r' records]; [reflexivity |].
    apply world_eq; simpl; try reflexivity.
    rewrite lookup_insert_eq. simpl. rewrite insert_insert_eq.
    rewrite <- app_assoc. reflexivity.
Qed.

(** The writing loop of the prober: the records up to the first one that
    [SeqIO.write] refuses are appended and counted. *)
Lemma write_sequences_all out records n w :
  writable E records = true ->
  write_sequences E out records n w =
    (None, (n + length records)%nat,
     match records with
     | [] => w
     | _ => set_outs (<[out := (default [] (outs w !! out) ++ map Fasta records)%list]> (outs w)) w
     end).
Proof.
  revert n w. induction records as [| r records IH]; intros n w Hw.
  - cbn [write_sequences length]. rewrite Nat.add_0_r. reflexivity.
  - cbn [writable forallb] in Hw. apply andb_prop in Hw as [Hr Hw].
    cbn [write_sequences]. unfold SeqIO_write.
    destruct (SeqIO_write_error E r); [discriminate |].
    unfold write_item at 1. cbv beta iota. rewrite (IH _ _ Hw).
    cbn [length]. rewrite Nat.add_succ_r. f_equal.
    destruct records as [| r' records]; [reflexivity |].
    apply world_eq; simpl; try reflexivity.
    rewrite lookup_insert_eq. simpl. rewrite insert_insert_eq.
    rewrite <- app_assoc. reflexivity.
Qed.

Lemma write_sequences_refused out pre r post n w e :
  writable E pre = true ->
  SeqIO_write_error E r = Some e ->
  write_sequences E out (pre ++ r :: post) n w =
    (Some e, (n + length pre)%nat,
     match pre with
     | [] => w
     | _ => set_outs (<[out := (default [] (outs w !! out) ++ map Fasta pre)%list]> (outs w)) w
     end).
Proof.
  revert n w. induction pre as [| r0 pre IH]; intros n w Hw He.
  - cbn [app write_sequences length]. unfold SeqIO_write. rewrite He.
    unfold raise. rewrite Nat.add_0_r. reflexivity.
  - cbn [writable forallb] in Hw. apply andb_prop in Hw as [Hr Hw].
    cbn [app write_sequences]. unfold SeqIO_write at 1.
    destruct (SeqIO_write_error E r0); [discriminate |].
    unfold write_item at 1. cbv beta iota. rewrite (IH _ _ Hw He).
    cbn [length]. rewrite Nat.add_succ_r. f_equal.
    destruct pre as [| r' pre]; [reflexivity |].
    apply world_eq; simpl; try reflexivity.
    rewrite lookup_insert_eq. simpl. rewrite insert_insert_eq.
    rewrite <- app_assoc. reflexivity.
Qed.

(** A candidate whose trial parse delivers nothing (the file cannot be
    read, the parser raises, or it yields no record) leaves the counter and
    the world as they were, and the loop goes on. *)
Lemma try_format_nothing input out fmt n w :
  candidate_records E (fs w !! input) fmt = [] ->
  exists t, try_format E input out fmt n w = (t, n, w) /\ t <> Break.
Proof.
  unfold candidate_records, try_format, read_file.
  destruct (fs w !! input) as [[| c] |];
    try (intros _; eexists; split; [reflexivity | discriminate]).
  destruct (SeqIO_parse E fmt c) as [[| r records] [e |]]; intros H;
    try (eexists; split; [reflexivity | discriminate]).
  discriminate.
Qed.

(** A candidate that delivers records, all of which [SeqIO.write] renders,
    writes them and reaches the [break]. *)
Lemma try_format_writes input out fmt n w :
  candidate_records E (fs w !! input) fmt <> [] ->
  writable E (candidate_records E (fs w !! input) fmt) = true ->
  try_format E input out fmt n w =
    (Break, (n + length (candidate_records E (fs w !! input) fmt))%nat,
     mkWorld (fs w)
       (<[out := (default [] (outs w !! out)
                    ++ map Fasta (candidate_records E (fs w !! input) fmt))%list]> (outs w))
       (log w ++ [InfoDetected fmt input]) (stdout w)).
Proof.
  unfold candidate_records, try_format, read_file.
  destruct (fs w !! input) as [[| c] |]; try congruence.
  destruct (SeqIO_parse E fmt c) as [[| r records] [e |]]; try congruence.
  intros _ Hw. cbv zeta. rewrite (write_sequences_all _ _ _ _ Hw).
  f_equal. apply world_eq; simpl; try reflexivity.
  rewrite lookup_insert_eq. simpl. rewrite insert_insert_eq. reflexivity.
Qed.

(** A candidate one of whose records [SeqIO.write] refuses: the format is
    announced, the output is opened, the records before the refused one are
    written and counted, and the exception is caught. *)
Lemma try_format_refused input out fmt n w pre r post e :
  candidate_records E (fs w !! input) fmt = (pre ++ r :: post)%list ->
  writable E pre = true ->
  SeqIO_write_error E r = Some e ->
  try_format E input out fmt n w =
    (Caught e, (n + length pre)%nat,
     mkWorld (fs w)
       (<[out := (default [] (outs w !! out) ++ map Fasta pre)%list]> (outs w))
       (log w ++ [InfoDetected fmt input]) (stdout w)).
Proof.
  unfold candidate_records, try_format, read_file.
  destruct (fs w !! input) as [[| c] |]; try (destruct pre; discriminate).
  destruct (SeqIO_parse E fmt c) as [records [e' |]]; [destruct pre; discriminate |].
  intros -> Hw He.
  assert (Hne : exists r0 l, (pre ++ r :: post)%list = r0 :: l)
    by (destruct pre; simpl; eauto).
  destruct Hne as (r0 & l & Hne). rewrite Hne. cbv iota zeta. rewrite <- Hne.
  rewrite (write_sequences_refused _ _ _ _ _ _ _ Hw He).
  f_equal. destruct pre as [| r1 pre].
  - apply world_eq; simpl; try reflexivity. rewrite app_nil_r. reflexivity.
  - apply world_eq; simpl; try reflexivity.
    rewrite lookup_insert_eq. simpl. rewrite insert_insert_eq. reflexivity.
Qed.

(** The loop over the candidates skips those that deliver nothing. *)
Lemma probe_skips input out pre rest n w :
  Forall (fun fmt => candidate_records E (fs w !! input) fmt = []) pre ->
  probe E input out (pre ++ rest) n w = probe E input out rest n w.
Proof.
  induction 1 as [| fmt pre Hfmt Hpre IH]; [reflexivity |].
  cbn [app probe].
  destruct (try_format_nothing input out fmt n w Hfmt) as (t & -> & Ht).
  destruct t; [congruence | exact IH | exact IH].
Qed.

(** The first candidate that delivers records, all of them rendered, ends
    the loop. *)
Lemma probe_first input out fmt rest n w :
  candidate_records E (fs w !! input) fmt <> [] ->
  writable E (candidate_records E (fs w !! input) fmt) = true ->
  probe E input out (fmt :: rest) n w =
    (Ok (n + length (candidate_records E (fs w !! input) fmt))%nat,
     mkWorld (fs w)
       (<[out := (default [] (outs w !! out)
                    ++ map Fasta (candidate_records E (fs w !! input) fmt))%list]> (outs w))
       (log w ++ [InfoDetected fmt input]) (stdout w)).
Proof.
  intros Hne Hw. cbn [probe].
  rewrite (try_format_writes input out fmt n w Hne Hw). reflexivity.
Qed.


End Writing.

(** ** The quality filter *)

Section QualityFilter.

Lemma sum_nonneg quals : Forall (fun q => (0 <= q)%Z) quals -> (0 <= sum quals)%Z.
Proof. induction 1; simpl; lia. Qed.

(** With at least one score, a read passes exactly when its mean, the
    exact quotient, is at least the threshold. *)
Lemma passes_iff_mean t quals :
  quals <> [] ->
  passes t quals = true <->
  (inject_Z t <= sum quals # Pos.of_nat (length quals))%Q.
Proof.
  intros Hne. unfold passes, average.
  destruct quals as [| q quals]; [congruence |].
  apply Qle_bool_iff.
Qed.

(** The same without fractions: [threshold * len <= sum]. *)
Lemma passes_iff_sum t quals :
  quals <> [] ->
  passes t quals = true <-> (t * Z.of_nat (length quals) <= sum quals)%Z.
Proof.
  intros Hne. rewrite (passes_iff_mean t quals Hne).
  unfold Qle. cbn [Qnum Qden inject_Z].
  destruct quals as [| q quals]; [congruence |].
  cbn [length]. rewrite Z.mul_1_r.
  replace (Z.pos (Pos.of_nat (S (length quals)))) with (Z.of_nat (S (length quals)))
    by (rewrite <- positive_nat_Z, Nat2Pos.id by discriminate; reflexivity).
  reflexivity.
Qed.

(** The boundary is inclusive. *)
Lemma passes_at_threshold t quals :
  quals <> [] -> sum quals = (t * Z.of_nat (length quals))%Z -> passes t quals = true.
Proof. intros Hne Heq. apply passes_iff_sum; [exact Hne | lia]. Qed.

(** Threshold 0 lets every read with at least one score through, scores
    being non-negative. *)
Lemma passes_threshold_zero quals :
  quals <> [] -> Forall (fun q => (0 <= q)%Z) quals -> passes 0 quals = true.
Proof.
  intros Hne Hpos. apply passes_iff_sum; [exact Hne |].
  pose proof (sum_nonneg quals Hpos). lia.
Qed.

(** The filter in the loop is [accepts]: a record with a mean is written
    when it passes and counted as filtered when it does not; a record
    without scores is written. *)
Lemma fastq_record_accepts E out t record a b w :
  has_mean record = true ->
  fastq_record E out t record (a, b) w =
    if accepts t record
    then (Ok (S a, b),
          set_outs (<[out := (default [] (outs w !! out)
                                ++ [Fasta (fasta_of_read E record)])%list]> (outs w)) w)
    else (Ok (a, S b), w).
Proof.
  unfold fastq_record, accepts, fasta_of_read, has_mean, passes.
  destruct (phred_quality record) as [quals |]; [| reflexivity].
  destruct quals as [| q quals]; [discriminate |]. intros _.
  destruct (average (q :: quals)) as [avg |] eqn:Havg; [| discriminate].
  simpl default. destruct (Qle_bool (inject_Z t) avg); reflexivity.
Qed.

(** A read without any score has no mean: the division raises. *)
Lemma fastq_record_empty E out t record n w :
  phred_quality record = Some [] ->
  fastq_record E out t record n w = (Raise ZeroDivisionError, w).
Proof. intros H. unfold fastq_record. rewrite H. reflexivity. Qed.

End QualityFilter.

(** ** The FASTQ converter on a file that decodes *)

Section Fastq.

Variable E : Env.

Lemma fastq_loop out t records : forall a b w old,
  Forall (fun r => has_mean r = true) records ->
  outs w !! out = Some old ->
  for_each (fastq_record E out t) records (a, b) w =
    (Ok ((a + length (List.filter (accepts t) records))%nat,
         (b + length (List.filter (fun r => negb (accepts t r)) records))%nat),
     set_outs (<[out := (old ++ map (fun r => Fasta (fasta_of_read E r))
                                (List.filter (accepts t) records))%list]> (outs w)) w).
Proof.
  induction records as [| r records IH]; intros a b w old Hall Hout.
  - simpl. unfold ret. rewrite !Nat.add_0_r, app_nil_r. f_equal.
    apply world_eq; simpl; try reflexivity.
    symmetry. apply insert_id, Hout.
  - inversion Hall as [| r' l' Hr Hrest]; subst.
    change (for_each (fastq_record E out t) (r :: records) (a, b) w)
      with (bind (fastq_record E out t r (a, b))
              (fun s' => for_each (fastq_record E out t) records s') w).
    unfold bind at 1.
    assert (Hstep :
      fastq_record E out t r (a, b) w =
        if accepts t r
        then (Ok (S a, b),
              set_outs (<[out := (old ++ [Fasta (fasta_of_read E r)])%list]> (outs w)) w)
        else (Ok (a, S b), w)).
    { rewrite (fastq_record_accepts E out t r a b w Hr), Hout. reflexivity. }
    rewrite Hstep. simpl List.filter.
    destruct (accepts t r); simpl negb; cbv iota.
    + rewrite (IH (S a) b _ (old ++ [Fasta (fasta_of_read E r)])%list Hrest)
        by (simpl; apply lookup_insert_eq).
      cbn [length map]. rewrite Nat.add_succ_r. cbn [Nat.add]. f_equal.
      apply world_eq; simpl; try reflexivity.
      rewrite insert_insert_eq, <- app_assoc. reflexivity.
    + rewrite (IH a (S b) w old Hrest Hout).
      cbn [length]. rewrite Nat.add_succ_r. reflexivity.
Qed.

(** A file that decodes as FASTQ, each record with a mean: the accepted
    reads are appended to the output, in order, and the two counters are
    logged. *)
Lemma process_fastq_decodes file out t w c records :
  fs w !! file = Some (File c) ->
  decoded E fastq file c = (records, None) ->
  Forall (fun r => has_mean r = true) records ->
  process_fastq_to_fasta E file out t w =
    (Ok tt,
     mkWorld (fs w)
       (<[out := (default [] (outs w !! out)
                    ++ map (fun r => Fasta (fasta_of_read E r))
                         (List.filter (accepts t) records))%list]> (outs w))
       (log w ++ [InfoConvertedFrom (length (List.filter (accepts t) records)) file;
                  InfoFilteredOut (length (List.filter (fun r => negb (accepts t r)) records))])
       (stdout w)).
Proof.
  intros Hf Hdec Hall. unfold decoded in Hdec.
  unfold process_fastq_to_fasta, try_except.
  unfold bind at 1. unfold open_text. unfold bind at 1. unfold read_file.
  rewrite Hf. cbv beta iota. unfold ret at 1. cbv beta iota.
  unfold bind at 1. unfold open_append at 1. cbv beta iota.
  unfold bind at 1. unfold for_parsed. unfold bind at 1.
  rewrite Hdec. cbn [fst snd].
  rewrite (fastq_loop out t records 0 0 _ (default [] (outs w !! out)) Hall)
    by (simpl; apply lookup_insert_eq).
  cbv beta iota. unfold ret at 1. cbv beta iota.
  unfold bind, logger. simpl. f_equal.
  apply world_eq; simpl; try reflexivity.
  - rewrite insert_insert_eq. reflexivity.
  - rewrite <- app_assoc. reflexivity.
Qed.

End Fastq.

(** ** The failure path of the orchestrator *)

Section Failure.

Variable E : Env.

Lemma os_path_exists_fs p w : is_Some (fs w !! p) -> os_path_exists p w = true.
Proof. intros [n Hn]. unfold os_path_exists. rewrite Hn. reflexivity. Qed.

Lemma makedirs_makes p w :
  fst (os_makedirs_exist_ok p w) = Ok tt ->
  fs (snd (os_makedirs_exist_ok p w)) !! p = Some Dir.
Proof.
  unfold os_makedirs_exist_ok.
  destruct (fs w !! p) as [[| c] |] eqn:Hp; destruct (outs w !! p); simpl;
    intros H; try discriminate; auto.
  all: apply lookup_insert_eq.
Qed.

Lemma extractall_grows dir members (f : gmap string Node) k :
  is_Some (f !! k) -> is_Some (extractall dir members f !! k).
Proof.
  unfold extractall. revert f.
  induction members as [| m members IH]; intros f H; simpl; [exact H |].
  apply IH. destruct (decide (path_join dir (fst m) = k)) as [-> | Hne].
  - rewrite lookup_insert_eq. eauto.
  - rewrite lookup_insert_ne; assumption.
Qed.

Lemma extract_grows tar dir w k :
  is_Some (fs w !! k) -> is_Some (fs (snd (extract_tar_gz E tar dir w)) !! k).
Proof.
  intros H. unfold extract_tar_gz, try_except, bind, read_file.
  destruct (fs w !! tar) as [[| c] |]; simpl; try exact H.
  destruct (tar_members E c) as [e | members]; simpl; [exact H |].
  apply extractall_grows, H.
Qed.

(** Once the working directory is made, it is there whenever the part of
    the [try] block before [import shutil] stops. *)
Lemma working_directory_stays tar out w :
  fst (os_makedirs_exist_ok (extract_dir_of tar) w) = Ok tt ->
  os_path_exists (extract_dir_of tar) (snd (convert_before_import E tar out w)) = true.
Proof.
  intros Hmk. apply os_path_exists_fs.
  pose proof (makedirs_makes _ _ Hmk) as Hdir.
  unfold convert_before_import, convert_extract.
  unfold bind at 1 2.
  destruct (os_makedirs_exist_ok (extract_dir_of tar) w) as [[[] | e] w1];
    simpl in *; [| discriminate].
  unfold bind at 1. simpl.
  set (w2 := mkWorld (fs w1) (outs w1) (log w1 ++ [InfoStarting tar]) (stdout w1)).
  assert (H2 : is_Some (fs w2 !! extract_dir_of tar)) by (simpl; eauto).
  apply (extract_grows tar (extract_dir_of tar)) in H2.
  destruct (extract_tar_gz E tar (extract_dir_of tar) w2) as [[files | e] w3];
    simpl in *; [| exact H2].
  rewrite keeps_fs_convert_entries. exact H2.
Qed.

(** A failure before [import shutil], with the working directory on disk:
    the handler reads the unbound local [shutil]; nothing is removed and
    the cause [e] is replaced. *)
Lemma convert_fails_before_import tar out w e w1 :
  convert_before_import E tar out w = (Raise e, w1) ->
  os_path_exists (extract_dir_of tar) w1 = true ->
  convert_tar_to_fasta E tar out w =
    (Raise (UnboundLocalError "shutil"),
     mkWorld (fs w1) (outs w1) (log w1 ++ [ErrorConversionFailed e]) (stdout w1)).
Proof.
  intros Hb Hex. unfold convert_tar_to_fasta. rewrite Hb.
  unfold convert_handler, bind, logger. simpl.
  unfold os_path_exists in *. simpl. 
  destruct (fs w1 !! extract_dir_of tar); destruct (outs w1 !! extract_dir_of tar);
    try discriminate; reflexivity.
Qed.

End Failure.

(** ** A decoding error stops the run; a run that returns has cleaned up *)

Section DecodeErrors.

Variable E : Env.

Lemma for_parsed_raises {S} (body : SeqRecord -> S -> M S) (p : Parsed) (s : S) w e0 :
  snd p = Some e0 -> exists e w', for_parsed body p s w = (Raise e, w').
Proof.
  intros H. unfold for_parsed, bind.
  destruct (for_each body (fst p) s w) as [[s' | e] w'].
  - rewrite H. eauto.
  - eauto.
Qed.

Lemma try_except_reraise {A} (m : M A) (ev : Exn -> LogEvent) w e w' :
  m w = (Raise e, w') ->
  exists w'', try_except m (fun e => run logger (ev e); raise e) w = (Raise e, w'').
Proof. intros H. unfold try_except. rewrite H. unfold bind. simpl. eauto. Qed.

Lemma process_fastq_decode_error file out t w c e0 :
  fs w !! file = Some (File c) ->
  snd (decoded E fastq file c) = Some e0 ->
  exists e w', process_fastq_to_fasta E file out t w = (Raise e, w').
Proof.
  intros Hf Herr. unfold process_fastq_to_fasta.
  match goal with
  | |- context [try_except ?m _ w] =>
      assert (Hm : exists e w', m w = (Raise e, w'))
  end.
  { unfold open_text. unfold bind at 1 2. unfold read_file. rewrite Hf. simpl.
    unfold bind at 1. simpl.
    match goal with
    | |- context [bind (for_parsed ?b ?p ?s) _ ?w0] =>
        destruct (for_parsed_raises b p s w0 e0 Herr) as (e & w' & Hp)
    end.
    unfold bind. rewrite Hp. eauto. }
  destruct Hm as (e & w' & Hm).
  destruct (try_except_reraise _ (ErrorFastq file) _ _ _ Hm) as (w'' & H).
  eauto.
Qed.

Lemma process_entry_decode_error out p total w c e0 :
  fs w !! p = Some (File c) ->
  decode_error E p c = Some e0 ->
  exists e w', process_entry E out p total w = (Raise e, w').
Proof.
  intros Hf Herr. unfold process_entry, os_path_isfile. rewrite Hf.
  unfold decode_error, classify in Herr. cbv zeta in *.
  destruct (endswith_any (lower p) [".fastq"; ".fastq.gz"; ".fq"; ".fq.gz"]).
  - unfold bind at 1 2. simpl.
    match goal with
    | |- context [process_fastq_to_fasta E p out ?t ?w0] =>
        destruct (process_fastq_decode_error p out t w0 c e0 Hf Herr) as (e & w' & H)
    end.
    rewrite H. eauto.
  - destruct (endswith_any (lower p) [".fasta"; ".fasta.gz"; ".fa"; ".fa.gz"; ".fas"]).
    + unfold bind at 1 2. simpl. unfold open_text. unfold bind at 1 2.
      unfold read_file. simpl. rewrite Hf. simpl. unfold bind at 1. simpl.
      eapply for_parsed_raises. exact Herr.
    + destruct (endswith_any (lower p) [".gb"; ".gbk"; ".genbank"]); [discriminate |].
      destruct (endswith (lower p) ".txt"); discriminate.
Qed.

Lemma entries_decode_error out files total w p c e0 :
  In p files ->
  fs w !! p = Some (File c) ->
  decode_error E p c = Some e0 ->
  exists e w', for_each (process_entry E out) files total w = (Raise e, w').
Proof.
  revert total w. induction files as [| x files IH]; intros total w Hin Hf Herr.
  - destruct Hin.
  - simpl. unfold bind.
    destruct (process_entry E out x total w) as [[total' | e] w1] eqn:Hx.
    + destruct Hin as [-> | Hin].
      * destruct (process_entry_decode_error out p total w c e0 Hf Herr) as (e & w' & H).
        congruence.
      * apply IH; auto.
        pose proof (keeps_fs_process_entry E out x total w) as Hk.
        rewrite Hx in Hk. simpl in Hk. rewrite Hk. exact Hf.
    + eauto.
Qed.

(** The [except] clause of the orchestrator never ends normally. *)
Lemma convert_handler_raises tar bound e w :
  exists e' w', convert_handler tar bound e w = (Raise e', w').
Proof.
  unfold convert_handler, bind, logger. simpl.
  destruct (os_path_exists _ _); [| simpl; eauto].
  destruct bound; [| simpl; eauto].
  destruct (shutil_rmtree _ _) as [[[] | e1] w1]; simpl; eauto.
Qed.

Lemma convert_raises_before_import tar out w e w1 :
  convert_before_import E tar out w = (Raise e, w1) ->
  exists e', fst (convert_tar_to_fasta E tar out w) = Raise e'.
Proof.
  intros H. unfold convert_tar_to_fasta. rewrite H.
  destruct (convert_handler_raises tar false e w1) as (e' & w' & Hh).
  rewrite Hh. eauto.
Qed.

(** On the success path the working directory is removed. *)
Lemma working_directory_removed_on_success tar out w :
  fst (convert_tar_to_fasta E tar out w) = Ok tt ->
  fs (snd (convert_tar_to_fasta E tar out w)) !! extract_dir_of tar = None.
Proof.
  unfold convert_tar_to_fasta.
  destruct (convert_before_import E tar out w) as [[n | e] w1].
  - unfold convert_after_import, bind, shutil_rmtree.
    destruct (fs w1 !! extract_dir_of tar) as [[| c] |].
    + match goal with
      | |- context [os_path_exists out ?w0] => destruct (os_path_exists out w0)
      end.
      * intros _. simpl. apply map_lookup_filter_None. right.
        intros x _. simpl. unfold under. rewrite String.eqb_refl. discriminate.
      * destruct (convert_handler_raises tar true
                    (PlainException "Output file was not created")
                    (mkWorld (remove_tree (extract_dir_of tar) (fs w1))
                             (remove_tree (extract_dir_of tar) (outs w1))
                             (log w1) (stdout w1))) as (e' & w' & H).
        rewrite H. discriminate.
    + destruct (convert_handler_raises tar true (OSError (extract_dir_of tar)) w1)
        as (e' & w' & H).
      rewrite H. discriminate.
    + destruct (convert_handler_raises tar true (OSError (extract_dir_of tar)) w1)
        as (e' & w' & H).
      rewrite H. discriminate.
  - destruct (convert_handler_raises tar false e w1) as (e' & w' & H).
    rewrite H. discriminate.
Qed.

End DecodeErrors.

(** ** The prober and the order of its candidates *)



(** The candidates before [fmt] deliver nothing, [fmt] delivers records
    and [SeqIO.write] refuses one of them: the records before it are
    written, the exception is caught, and the formats after [fmt] are tried
    with the counter as the writes left it. *)
Lemma probe_refused E input out w pre fmt post written r rest e :
  Forall (fun f => candidate_records E (fs w !! input) f = []) pre ->
  candidate_records E (fs w !! input) fmt = (written ++ r :: rest)%list ->
  writable E written = true ->
  SeqIO_write_error E r = Some e ->
  probe E input out (pre ++ fmt :: post) 0 w =
    probe E input out post (length written)
      (mkWorld (fs w)
         (<[out := (default [] (outs w !! out) ++ map Fasta written)%list]> (outs w))
         (log w ++ [InfoDetected fmt input]) (stdout w)).
Proof.
  intros Hpre Hc Hw He.
  rewrite (probe_skips E input out pre _ 0 w Hpre). cbn [probe].
  rewrite (try_format_refused E input out fmt 0 w written r rest e Hc Hw He).
  reflexivity.
Qed.


(** ** A run on one FASTQ entry *)

Lemma remove_tree_lookup {V} p (m : gmap string V) k :
  under p k = false -> remove_tree p m !! k = m !! k.
Proof.
  intros Hk. unfold remove_tree.
  destruct (m !! k) as [v |] eqn:Hm.
  - apply map_lookup_filter_Some. split; [exact Hm | exact Hk].
  - apply map_lookup_filter_None. left. exact Hm.
Qed.




(** ** Two scenarios of the specification, run on the sample *)

(** An archive without entries: the run returns, the output holds the two
    header lines and the working directory is gone. *)
Example empty_archive :
  let r := convert_tar_to_fasta Sample.env "in.tar.gz" "out.fasta"
             (Sample.disk "in.tar.gz" "tar: empty") in
  fst r = Ok tt /\
  outs (snd r) !! "out.fasta" =
    Some [Comment "# Converted from in.tar.gz";
          Comment "# Conversion timestamp: Tue Nov  3 12:00:00 UTC 2026"] /\
  fs (snd r) !! "in.tar.gz_extracted" = None.
Proof. vm_compute. repeat split; reflexivity. Qed.

(** A text entry that no format reads, below a directory entry: it is
    skipped with the warning and the run returns. *)
Example unparsable_text_entry :
  let r := convert_tar_to_fasta Sample.env "in.tar.gz" "out.fasta"
             (Sample.disk "in.tar.gz" "tar: unparsable text") in
  fst r = Ok tt /\
  count_headers (default [] (outs (snd r) !! "out.fasta")) = 0%nat /\
  In (WarningUnknownFormat "in.tar.gz_extracted/notes/readme.txt") (log (snd r)).
Proof. vm_compute. repeat split; try reflexivity. tauto. Qed.

(** ** The claims of the specification *)

(** C1, as stated, fails: an archive with a FASTQ entry that does not
    decode and a FASTQ entry of ten reads, six of which pass the filter,
    does not end in Done.  With the corrupt entry first the run raises and
    the output holds no record; with the valid entry first the six reads
    are written and the run raises all the same. *)
Lemma corrupt_entry_fails_run :
  let r1 := convert_tar_to_fasta Sample.env "in.tar.gz" "out.fasta"
              (Sample.disk "in.tar.gz" "tar: corrupt then valid") in
  let r2 := convert_tar_to_fasta Sample.env "in.tar.gz" "out.fasta"
              (Sample.disk "in.tar.gz" "tar: valid then corrupt") in
  (fst r1 <> Ok tt /\
   count_headers (default [] (outs (snd r1) !! "out.fasta")) = 0%nat) /\
  (fst r2 <> Ok tt /\
   count_headers (default [] (outs (snd r2) !! "out.fasta")) = 6%nat).
Proof. vm_compute. repeat split; discriminate. Qed.

(** C1, amended: when the extracted entries include a regular file of the
    reads-with-quality or assembled-sequence category whose decoding ends
    with an exception, the run does not end in Done: the converter logs the
    error and raises it again, the loop over the entries has no handler,
    and [convert_tar_to_fasta] raises. *)
Theorem decode_error_fails_run E tar out w files w2 p c e0 :
  convert_extract E tar w = (Ok files, w2) ->
  In p files ->
  fs w2 !! p = Some (File c) ->
  decode_error E p c = Some e0 ->
  exists e, fst (convert_tar_to_fasta E tar out w) = Raise e.
Proof.
  intros Hex Hin Hf Herr.
  assert (Hb : exists e w1, convert_before_import E tar out w = (Raise e, w1)).
  { unfold convert_before_import. unfold bind at 1. rewrite Hex.
    unfold convert_entries.
    unfold bind at 1, open_truncate at 1. cbv beta iota.
    unfold bind at 1, write_item at 1. cbv beta iota.
    unfold bind at 1, write_item at 1. cbv beta iota.
    eapply entries_decode_error; eauto. }
  destruct Hb as (e & w1 & Hb).
  eapply convert_raises_before_import; eauto.
Qed.

Lemma decode_error_fails_run_witness :
  exists e,
    fst (convert_tar_to_fasta Sample.env "in.tar.gz" "out.fasta"
           (Sample.disk "in.tar.gz" "tar: valid then corrupt")) = Raise e.
Proof.
  eapply (decode_error_fails_run Sample.env "in.tar.gz" "out.fasta" _ _ _
            "in.tar.gz_extracted/bad.fastq" "not a fastq file" (ParseError fastq)).
  - vm_compute. reflexivity.
  - simpl. right. left. reflexivity.
  - vm_compute. reflexivity.
  - vm_compute. reflexivity.
Defined.

(** C2: the cleanup of the [except] clause raises an exception of its own.
    When the [try] block fails before [import shutil] and the working
    directory is on disk, the handler reads the unbound local [shutil]:
    the run ends with [UnboundLocalError], whatever the cause [e] was. *)
Theorem cleanup_raises_unbound_local E tar out w e w1 :
  convert_before_import E tar out w = (Raise e, w1) ->
  os_path_exists (extract_dir_of tar) w1 = true ->
  fst (convert_tar_to_fasta E tar out w) = Raise (UnboundLocalError "shutil").
Proof.
  intros Hb Hex. rewrite (convert_fails_before_import E tar out w e w1 Hb Hex).
  reflexivity.
Qed.

Lemma cleanup_raises_unbound_local_witness :
  fst (convert_tar_to_fasta Sample.env "in.tar.gz" "out.fasta"
         (Sample.disk "in.tar.gz" "not an archive")) = Raise (UnboundLocalError "shutil").
Proof.
  eapply (cleanup_raises_unbound_local Sample.env "in.tar.gz" "out.fasta" _ TarError).
  - vm_compute. reflexivity.
  - vm_compute. reflexivity.
Defined.

(** C3: the configured threshold does not reach the filter.  [main] gives
    the same result for every value of the option, and a read of mean 25 is
    written by a run configured with threshold 30. *)
Theorem configured_threshold_not_used :
  (forall E input output t w,
     main E (mkArgs input output t) w =
     main E (mkArgs input output default_quality_threshold) w) /\
  let r := main Sample.env (mkArgs "in.tar.gz" "out.fasta" 30)
             (Sample.disk "in.tar.gz" "tar: one read of mean 25") in
  fst r = Ok tt /\
  outs (snd r) !! "out.fasta" =
    Some [Comment "# Converted from in.tar.gz";
          Comment "# Conversion timestamp: Tue Nov  3 12:00:00 UTC 2026";
          Fasta (mkSeqRecord "ACGT" "q25" "avg_qual=25.0 q25" None)] /\
  passes 30 [25; 25; 25; 25]%Z = false.
Proof.
  split; [reflexivity |]. vm_compute. repeat split; reflexivity.
Qed.

(** C4: a read without any score carries quality scores and has no mean.
    The filter divides by its length, zero: the record is neither accepted
    nor rejected, the exception leaves the converter and ends the run, at
    every threshold. *)
Theorem empty_read_divides_by_zero :
  (forall E out t seq id description n w,
     fastq_record E out t (mkSeqRecord seq id description (Some [])) n w =
       (Raise ZeroDivisionError, w)) /\
  (forall t,
     fst (process_fastq_to_fasta Sample.env "reads.fastq" "out.fasta" t
            (mkWorld {[ "reads.fastq" := File "an empty read" ]} ∅ [] []))
       = Raise ZeroDivisionError) /\
  exists e,
    fst (convert_tar_to_fasta Sample.env "in.tar.gz" "out.fasta"
           (Sample.disk "in.tar.gz" "tar: an empty read")) = Raise e.
Proof.
  split; [| split].
  - intros. apply fastq_record_empty. reflexivity.
  - intros t. vm_compute. reflexivity.
  - eexists. vm_compute. reflexivity.
Qed.

(** C5: a refused write hides the format that was detected.  The write of
    the records is inside the inner [try] of [process_generic_sequences],
    so the bare [except] also catches what [SeqIO.write] raises.  Let [fmt]
    be the first of [fasta; genbank; embl; swiss] whose trial parse delivers
    records, and let [SeqIO.write] refuse one of them: the records before
    the refused one stay in the output and stay counted, and the loop goes
    on with the formats after [fmt].  When these deliver nothing, the entry
    is reported as converted with the records that got through, or, when
    the first record was refused, as of unknown format, right after the log
    line that names the format detected. *)
Theorem refused_write_tries_later_formats E input out w pre fmt post written r rest e :
  [fasta; genbank; embl; swiss] = (pre ++ fmt :: post)%list ->
  Forall (fun f => candidate_records E (fs w !! input) f = []) pre ->
  candidate_records E (fs w !! input) fmt = (written ++ r :: rest)%list ->
  writable E written = true ->
  SeqIO_write_error E r = Some e ->
  let detected :=
    mkWorld (fs w)
      (<[out := (default [] (outs w !! out) ++ map Fasta written)%list]> (outs w))
      (log w ++ [InfoDetected fmt input]) (stdout w) in
  probe E input out [fasta; genbank; embl; swiss] 0 w
    = probe E input out post (length written) detected /\
  (Forall (fun f => candidate_records E (fs w !! input) f = []) post ->
   process_generic_sequences E input out w =
     (Ok tt,
      mkWorld (fs w)
        (<[out := (default [] (outs w !! out) ++ map Fasta written)%list]> (outs w))
        (log w ++ [InfoDetected fmt input;
                   match written with
                   | [] => WarningUnknownFormat input
                   | _ => InfoConvertedFrom (length written) input
                   end])
        (stdout w))).
Proof.
  intros Hlist Hpre Hc Hw He detected.
  assert (Hprobe : probe E input out [fasta; genbank; embl; swiss] 0 w
                   = probe E input out post (length written) detected).
  { rewrite Hlist. exact (probe_refused E input out w pre fmt post written r rest e
                            Hpre Hc Hw He). }
  split; [exact Hprobe |].
  intros Hpost. unfold process_generic_sequences, try_except, bind.
  change formats_to_try with [fasta; genbank; embl; swiss]. rewrite Hprobe.
  rewrite <- (app_nil_r post).
  rewrite (probe_skips E input out post [] (length written) detected Hpost).
  cbn [probe]. unfold ret. subst detected.
  destruct written as [| r0 written]; cbn [length Nat.eqb]; unfold logger;
    (f_equal; apply world_eq; simpl; try reflexivity;
     rewrite <- app_assoc; reflexivity).
Qed.

(** On the sample GenBank file whose second record has no sequence data:
    the first record is written, the exception of the second write is
    caught, EMBL and Swiss-Prot are tried, and the entry is reported as
    converted with one sequence; the third record is lost without a
    message. *)
Lemma refused_write_tries_later_formats_witness :
  let w := mkWorld {[ "x/draft.gb" := File "a contig and a locus without sequence" ]}
                   ∅ [] [] in
  process_generic_sequences Sample.strict_env "x/draft.gb" "out.fasta" w =
    (Ok tt,
     mkWorld (fs w) {[ "out.fasta" := [Fasta (Sample.contig "g1")] ]}
       [InfoDetected genbank "x/draft.gb"; InfoConvertedFrom 1 "x/draft.gb"] []).
Proof.
  intros w.
  assert (Hlist : [fasta; genbank; embl; swiss] = ([fasta] ++ genbank :: [embl; swiss])%list)
    by reflexivity.
  assert (Hpre : Forall (fun f => candidate_records Sample.strict_env
                                    (fs w !! "x/draft.gb") f = []) [fasta])
    by (repeat constructor).
  assert (Hc : candidate_records Sample.strict_env (fs w !! "x/draft.gb") genbank
               = ([Sample.contig "g1"] ++ Sample.locus "L2" :: [Sample.contig "g3"])%list)
    by (vm_compute; reflexivity).
  assert (Hw : writable Sample.strict_env [Sample.contig "g1"] = true)
    by (vm_compute; reflexivity).
  assert (He : SeqIO_write_error Sample.strict_env (Sample.locus "L2")
               = Some UndefinedSequenceError)
    by (vm_compute; reflexivity).
  assert (Hpost : Forall (fun f => candidate_records Sample.strict_env
                                     (fs w !! "x/draft.gb") f = []) [embl; swiss])
    by (repeat constructor).
  destruct (refused_write_tries_later_formats Sample.strict_env "x/draft.gb" "out.fasta" w
              [fasta] genbank [embl; swiss] [Sample.contig "g1"] (Sample.locus "L2")
              [Sample.contig "g3"] UndefinedSequenceError Hlist Hpre Hc Hw He)
    as [_ Hrun].
  rewrite (Hrun Hpost). reflexivity.
Defined.

(** A GenBank entry whose only record has no sequence data, in a run: the
    log names the format detected and then reports the entry as of unknown
    format, and the run ends normally with no record in the output. *)
Example locus_without_sequence_entry :
  let w := mkWorld {[ "x/draft.gb" := File "a locus without sequence" ]} ∅ [] [] in
  process_entry Sample.strict_env "out.fasta" "x/draft.gb" 0 w =
    (Ok 0%nat,
     mkWorld (fs w) {[ "out.fasta" := [] ]}
       [InfoProcessingGenBank "x/draft.gb"; InfoDetected genbank "x/draft.gb";
        WarningUnknownFormat "x/draft.gb"] []).
Proof. vm_compute. reflexivity. Qed.

(** C6: the working directory outlives a failed run.  When the directory
    was made and the [try] block fails before [import shutil] (during the
    extraction or on an entry), the cleanup of the handler raises before
    [rmtree] is called and the directory is still on disk when the
    exception reaches the caller. *)
Theorem working_directory_survives_failure E tar out w e :
  fst (os_makedirs_exist_ok (extract_dir_of tar) w) = Ok tt ->
  fst (convert_before_import E tar out w) = Raise e ->
  os_path_exists (extract_dir_of tar) (snd (convert_tar_to_fasta E tar out w)) = true.
Proof.
  intros Hmk Hb.
  pose proof (working_directory_stays E tar out w Hmk) as Hex.
  destruct (convert_before_import E tar out w) as [r w1] eqn:Hbi.
  simpl in Hb, Hex. subst r.
  rewrite (convert_fails_before_import E tar out w e w1 Hbi Hex).
  exact Hex.
Qed.

Lemma working_directory_survives_failure_witness :
  fs (snd (convert_tar_to_fasta Sample.env "in.tar.gz" "out.fasta"
             (Sample.disk "in.tar.gz" "not an archive"))) !! "in.tar.gz_extracted"
    = Some Dir /\
  os_path_exists "in.tar.gz_extracted"
    (snd (convert_tar_to_fasta Sample.env "in.tar.gz" "out.fasta"
            (Sample.disk "in.tar.gz" "not an archive"))) = true.
Proof.
  split.
  - vm_compute. reflexivity.
  - apply (working_directory_survives_failure Sample.env "in.tar.gz" "out.fasta" _ TarError).
    + vm_compute. reflexivity.
    + vm_compute. reflexivity.
Defined.

(** C7, as stated, fails: when the archive cannot be opened, the output
    file has not been created; and an output file left by an earlier run
    has not been cleared and holds no new header. *)
Lemma extraction_failure_leaves_output :
  let old := [Comment "# Converted from earlier.tar.gz"; Fasta (Sample.contig "c0")] in
  let r1 := convert_tar_to_fasta Sample.env "in.tar.gz" "out.fasta"
              (Sample.disk "in.tar.gz" "not an archive") in
  let r2 := convert_tar_to_fasta Sample.env "in.tar.gz" "out.fasta"
              (Sample.disk_with_output "in.tar.gz" "not an archive" "out.fasta" old) in
  fst (convert_extract Sample.env "in.tar.gz" (Sample.disk "in.tar.gz" "not an archive"))
    = Raise TarError /\
  outs (snd r1) !! "out.fasta" = None /\
  outs (snd r2) !! "out.fasta" = Some old.
Proof. vm_compute. repeat split; reflexivity. Qed.

(** C7, amended: the extraction comes first.  The working directory and
    the extraction leave the output files alone; when the extraction
    succeeds, the output is then set to the two header lines and the loop
    over the entries starts from there; when it fails, the run ends with
    the output files as they were before the run. *)
Theorem extraction_precedes_header E tar out w :
  outs (snd (convert_extract E tar w)) = outs w /\
  match convert_extract E tar w with
  | (Ok extracted_files, w2) =>
      convert_before_import E tar out w =
        for_each (process_entry E out) extracted_files 0%nat
          (set_outs (<[out := [Comment ("# Converted from " ++ basename tar);
                               Comment ("# Conversion timestamp: " ++ date_output E)]]>
                       (outs w2)) w2)
  | (Raise e, _) =>
      outs (snd (convert_tar_to_fasta E tar out w)) = outs w
  end.
Proof.
  split; [apply keeps_outs_convert_extract |].
  pose proof (keeps_outs_convert_extract E tar w) as Hk.
  destruct (convert_extract E tar w) as [[files | e] w2] eqn:Hex; simpl in Hk.
  - unfold convert_before_import. unfold bind at 1. rewrite Hex.
    unfold convert_entries.
    unfold bind at 1, open_truncate at 1. cbv beta iota.
    unfold bind at 1, write_item at 1. cbv beta iota.
    unfold bind at 1, write_item at 1. cbv beta iota.
    f_equal. apply world_eq; simpl; try reflexivity.
    rewrite !lookup_insert_eq. simpl. rewrite !insert_insert_eq. reflexivity.
  - unfold convert_tar_to_fasta, convert_before_import. unfold bind at 1.
    rewrite Hex. unfold convert_handler, bind, logger. simpl.
    destruct (os_path_exists _ _); simpl; exact Hk.
Qed.

(** C8: the decompression looks at the suffix as it is spelled.  The
    entries [CONTIGS.FASTA.GZ] and [contigs.fasta.gz], with the same
    compressed content, are both classified assembled-sequence; the second
    is decompressed and its two records are written, the first is read as
    plain text, the parser rejects it and the run fails. *)
Theorem uppercase_gz_not_decompressed :
  let w := mkWorld {[ "x/CONTIGS.FASTA.GZ" := File "gz:two contigs";
                      "x/contigs.fasta.gz" := File "gz:two contigs" ]} ∅ [] [] in
  let upper := convert_tar_to_fasta Sample.env "in.tar.gz" "out.fasta"
                 (Sample.disk "in.tar.gz" "tar: upper case gz") in
  let lower := convert_tar_to_fasta Sample.env "in.tar.gz" "out.fasta"
                 (Sample.disk "in.tar.gz" "tar: lower case gz") in
  classify "x/CONTIGS.FASTA.GZ" = Assembled /\
  classify "x/contigs.fasta.gz" = Assembled /\
  fst (open_text Sample.env "x/CONTIGS.FASTA.GZ" w) = Ok (inr "gz:two contigs") /\
  fst (open_text Sample.env "x/contigs.fasta.gz" w) = Ok (inr "two contigs") /\
  (fst lower = Ok tt /\
   count_headers (default [] (outs (snd lower) !! "out.fasta")) = 2%nat) /\
  (fst upper <> Ok tt /\
   count_headers (default [] (outs (snd upper) !! "out.fasta")) = 0%nat).
Proof. vm_compute. repeat split; try reflexivity; discriminate. Qed.






(** * Further properties of the conversion service *)

(** ** The suffix table *)

(** The rows of the dispatch of [convert_tar_to_fasta]: suffix, in lower
    case, and category. *)
Definition suffix_table : list (string * Category) :=
  [ (".fastq", Reads); (".fastq.gz", Reads); (".fq", Reads); (".fq.gz", Reads);
    (".fasta", Assembled); (".fasta.gz", Assembled); (".fa", Assembled);
    (".fa.gz", Assembled); (".fas", Assembled);
    (".gb", Curated); (".gbk", Curated); (".genbank", Curated);
    (".txt", Text) ].

Lemma lower_app a b : lower (a ++ b) = lower a ++ lower b.
Proof. induction a as [| c a IH]; simpl; [reflexivity | rewrite IH; reflexivity]. Qed.

Lemma endswith_refl s : endswith s s = true.
Proof.
  destruct s as [| c s]; [reflexivity |].
  cbn -[String.eqb]. rewrite String.eqb_refl. reflexivity.
Qed.

Lemma endswith_app a b suf : endswith b suf = true -> endswith (a ++ b) suf = true.
Proof.
  intros H. induction a as [| c a IH]; [exact H |].
  change (endswith (String c a ++ b) suf)
    with (String.eqb (String c (a ++ b)) suf || endswith (a ++ b) suf).
  rewrite IH. apply orb_true_r.
Qed.

(** A suffix of [a ++ b] is a suffix of [b] or has [b] as a suffix. *)
Lemma endswith_app_inv a b suf :
  endswith (a ++ b) suf = true -> endswith b suf = true \/ endswith suf b = true.
Proof.
  induction a as [| c a IH]; [simpl; auto |].
  change (endswith (String c a ++ b) suf)
    with (String.eqb (String c (a ++ b)) suf || endswith (a ++ b) suf).
  intros H. apply orb_true_iff in H. destruct H as [H | H]; [| auto].
  apply String.eqb_eq in H. subst suf. right.
  apply (endswith_app (String c a) b b), endswith_refl.
Qed.

Lemma endswith_any_app a b sufs :
  existsb (endswith b) sufs = true -> endswith_any (a ++ b) sufs = true.
Proof.
  unfold endswith_any. intros H. apply existsb_exists in H.
  destruct H as (suf & Hin & Hsuf). apply existsb_exists.
  exists suf. split; [exact Hin | apply endswith_app, Hsuf].
Qed.

Lemma endswith_any_app_none a b sufs :
  forallb (fun suf => negb (endswith b suf) && negb (endswith suf b)) sufs = true ->
  endswith_any (a ++ b) sufs = false.
Proof.
  unfold endswith_any. intros H.
  destruct (existsb (endswith (a ++ b)) sufs) eqn:Hex; [| reflexivity].
  apply existsb_exists in Hex. destruct Hex as (suf & Hin & Hsuf).
  rewrite forallb_forall in H. specialize (H suf Hin).
  apply andb_true_iff in H. destruct H as [H1 H2].
  apply endswith_app_inv in Hsuf. destruct Hsuf as [Hs | Hs]; rewrite Hs in *; discriminate.
Qed.

(** X1: the suffix table is what the dispatch implements.  A path made of
    any stem and a suffix which, in lower case, is a row of the table
    falls in the category of that row, whatever the stem and the letter
    case of the suffix; the order of the [elif] chain never sends it to
    another row. *)
Theorem classify_suffix_table stem suffix cat :
  In (lower suffix, cat) suffix_table -> classify (stem ++ suffix) = cat.
Proof.
  intros H. unfold classify. cbv zeta. rewrite lower_app.
  unfold suffix_table in H. cbn [In] in H.
  repeat (destruct H as [H | H]; [injection H as <- <- |]); [.. | destruct H];
    repeat match goal with
           | |- context [endswith_any (?a ++ ?b) ?sufs] =>
               first [ rewrite (endswith_any_app a b sufs) by (vm_compute; reflexivity)
                     | rewrite (endswith_any_app_none a b sufs) by (vm_compute; reflexivity) ]
           end;
    try reflexivity.
  rewrite (endswith_app (lower stem) ".txt" ".txt") by reflexivity. reflexivity.
Qed.

Lemma classify_suffix_table_witness :
  classify ("run1/Sample_A" ++ ".FASTQ.GZ") = Reads /\
  classify ("x.fastq" ++ ".Fa") = Assembled.
Proof.
  split.
  - apply (classify_suffix_table "run1/Sample_A" ".FASTQ.GZ" Reads).
    vm_compute. tauto.
  - apply (classify_suffix_table "x.fastq" ".Fa" Assembled).
    vm_compute. tauto.
Defined.

(** ** Appending to the output *)

(** [o'] is [o] with records added at the end of the file [out], and
    nothing else changed. *)
Definition extends (out : string) (o o' : gmap string (list OutItem)) : Prop :=
  (forall q, q <> out -> o' !! q = o !! q) /\
  exists added,
    default [] (o' !! out) = (default [] (o !! out) ++ map Fasta added)%list.

(** A computation that only appends records to [out]. *)
Definition appends_to {A} (out : string) (m : M A) : Prop :=
  forall w, extends out (outs w) (outs (snd (m w))).

Lemma extends_refl out o : extends out o o.
Proof. split; [reflexivity |]. exists []. simpl. rewrite app_nil_r. reflexivity. Qed.

Lemma extends_trans out o1 o2 o3 :
  extends out o1 o2 -> extends out o2 o3 -> extends out o1 o3.
Proof.
  intros [H1 [a1 Ha1]] [H2 [a2 Ha2]]. split.
  - intros q Hq. rewrite H2, H1 by assumption. reflexivity.
  - exists (a1 ++ a2)%list. rewrite Ha2, Ha1, map_app, app_assoc. reflexivity.
Qed.

Section Appends.

Variable out : string.

Lemma appends_keeps {A} (m : M A) : keeps outs m -> appends_to out m.
Proof. intros H w. rewrite H. apply extends_refl. Qed.

Lemma appends_ret {A} (a : A) : appends_to out (ret a).
Proof. apply appends_keeps, keeps_ret. Qed.

Lemma appends_raise {A} (e : Exn) : appends_to out (@raise A e).
Proof. apply appends_keeps, keeps_raise. Qed.

Lemma appends_bind {A B} (m : M A) (k : A -> M B) :
  appends_to out m -> (forall a, appends_to out (k a)) -> appends_to out (bind m k).
Proof.
  intros Hm Hk w. unfold bind. specialize (Hm w).
  destruct (m w) as [[a | e] w1]; simpl in *; [| exact Hm].
  eapply extends_trans; [exact Hm | apply Hk].
Qed.

Lemma appends_try_except {A} (m : M A) (h : Exn -> M A) :
  appends_to out m -> (forall e, appends_to out (h e)) -> appends_to out (try_except m h).
Proof.
  intros Hm Hh w. unfold try_except. specialize (Hm w).
  destruct (m w) as [[a | e] w1]; simpl in *; [exact Hm |].
  eapply extends_trans; [exact Hm | apply Hh].
Qed.

Lemma appends_for_each {A S} (body : A -> S -> M S) (l : list A) (s : S) :
  (forall x s', appends_to out (body x s')) -> appends_to out (for_each body l s).
Proof.
  intros Hb. revert s. induction l as [| x l IH]; intros s; simpl.
  - apply appends_ret.
  - apply appends_bind; [apply Hb | exact IH].
Qed.

Lemma appends_for_parsed {S} (body : SeqRecord -> S -> M S) (p : Parsed) (s : S) :
  (forall x s', appends_to out (body x s')) -> appends_to out (for_parsed body p s).
Proof.
  intros Hb. unfold for_parsed. apply appends_bind.
  - apply appends_for_each, Hb.
  - intros a. destruct (snd p); [apply appends_raise | apply appends_ret].
Qed.

Lemma appends_logger ev : appends_to out (logger ev).
Proof. apply appends_keeps, keeps_outs_logger. Qed.

Lemma appends_read_file p : appends_to out (read_file p).
Proof. apply appends_keeps, keeps_read_file. Qed.

Lemma appends_open_append : appends_to out (open_append out).
Proof.
  intros w. split; simpl.
  - intros q Hq. apply lookup_insert_ne. congruence.
  - exists []. rewrite lookup_insert_eq. simpl. rewrite app_nil_r. reflexivity.
Qed.

Lemma appends_write_item r : appends_to out (write_item out (Fasta r)).
Proof.
  intros w. split; simpl.
  - intros q Hq. apply lookup_insert_ne. congruence.
  - exists [r]. rewrite lookup_insert_eq. reflexivity.
Qed.

End Appends.

Create HintDb appends.
#[export] Hint Resolve appends_ret appends_raise appends_logger appends_read_file
  appends_open_append appends_write_item : appends.

Ltac appends :=
  repeat first
    [ solve [auto with appends]
    | apply appends_for_parsed; intros ? ?
    | apply appends_for_each; intros ? ?
    | apply appends_bind; [| intros ?]
    | apply appends_try_except; [| intros ?]
    | match goal with
      | |- appends_to _ (match ?x with _ => _ end) => destruct x
      | |- appends_to _ (if ?x then _ else _) => destruct x
      end ].

Section AppendOnly.

Variable E : Env.
Variable out : string.

Lemma appends_fastq_record t record n : appends_to out (fastq_record E out t record n).
Proof. unfold fastq_record. appends. Qed.
#[local] Hint Resolve appends_fastq_record : appends.

Lemma appends_open_text file : appends_to out (open_text E file).
Proof. unfold open_text. appends. Qed.
#[local] Hint Resolve appends_open_text : appends.

Lemma appends_process_fastq file t : appends_to out (process_fastq_to_fasta E file out t).
Proof. unfold process_fastq_to_fasta. appends. Qed.
#[local] Hint Resolve appends_process_fastq : appends.

Lemma appends_probe input formats n : appends_to out (probe E input out formats n).
Proof.
  intros w.
  apply (probe_invariant E (fun w1 w2 => extends out (outs w1) (outs w2)) input out).
  - intros w1. apply extends_refl.
  - intros w1 w2 w3. apply extends_trans.
  - intros ev w1. apply appends_logger.
  - intros w1. apply appends_open_append.
  - intros record w1. apply appends_write_item.
Qed.
#[local] Hint Resolve appends_probe : appends.

Lemma appends_process_generic input : appends_to out (process_generic_sequences E input out).
Proof. unfold process_generic_sequences. appends. Qed.
#[local] Hint Resolve appends_process_generic : appends.

Lemma appends_process_entry file total : appends_to out (process_entry E out file total).
Proof.
  intros w. unfold process_entry.
  destruct (os_path_isfile file w); [| apply extends_refl].
  repeat match goal with
         | |- context [if ?b then _ else _] => destruct b
         end;
    match goal with
    | |- extends out (outs w) (outs (snd (?m w))) => revert w; change (appends_to out m)
    end; appends.
Qed.

End AppendOnly.

(** The loop over the entries only appends records to the output. *)
Lemma appends_entries E out files total w :
  extends out (outs w) (outs (snd (for_each (process_entry E out) files total w))).
Proof.
  revert w. change (appends_to out (for_each (process_entry E out) files total)).
  apply appends_for_each. intros x s. apply appends_process_entry.
Qed.

(** X2: the loop over the entries only appends.  Whatever the entries
    are, and whether the loop ends normally or with an exception, the
    output file afterwards is its content before the loop followed by
    records, and no other output file is touched: no converter opens the
    output in truncating mode or writes a comment line. *)
Theorem entries_append_only E out files total w :
  extends out (outs w) (outs (snd (for_each (process_entry E out) files total w))).
Proof.
  revert w. change (appends_to out (for_each (process_entry E out) files total)).
  apply appends_for_each. intros x s. apply appends_process_entry.
Qed.

(** ** The run that returns *)

Lemma remove_tree_under {V} p (m : gmap string V) k :
  under p k = true -> remove_tree p m !! k = None.
Proof.
  intros Hk. unfold remove_tree. apply map_lookup_filter_None. right.
  intros x _. simpl. rewrite Hk. discriminate.
Qed.

Lemma under_refl p : under p p = true.
Proof. unfold under. rewrite String.eqb_refl. reflexivity. Qed.

Lemma count_headers_fasta a b records :
  count_headers (Comment a :: Comment b :: map Fasta records) = length records.
Proof.
  unfold count_headers. cbn [List.filter].
  induction records as [| r records IH]; [reflexivity |].
  simpl. f_equal. exact IH.
Qed.

Section Success.

Variable E : Env.

(** A run that returns went through both parts of the [try] block: the
    part before [import shutil] returned, [rmtree] removed the working
    directory, and the output was found afterwards. *)
Lemma convert_success_inv tar out w :
  fst (convert_tar_to_fasta E tar out w) = Ok tt ->
  exists n w1,
    convert_before_import E tar out w = (Ok n, w1) /\
    fs w1 !! extract_dir_of tar = Some Dir /\
    let w4 := mkWorld (remove_tree (extract_dir_of tar) (fs w1))
                      (remove_tree (extract_dir_of tar) (outs w1))
                      (log w1) (stdout w1) in
    os_path_exists out w4 = true /\
    snd (convert_tar_to_fasta E tar out w) =
      mkWorld (fs w4) (outs w4)
        (log w1 ++ [InfoCompleted; InfoOutputFile out;
                    InfoTotalInOutput (count_headers (default [] (outs w4 !! out)))])
        (stdout w1).
Proof.
  unfold convert_tar_to_fasta.
  destruct (convert_before_import E tar out w) as [[n | e] w1].
  - unfold convert_after_import, bind, shutil_rmtree.
    destruct (fs w1 !! extract_dir_of tar) as [[| c] |] eqn:Hdir.
    + match goal with
      | |- context [os_path_exists out ?w0] => destruct (os_path_exists out w0) eqn:Hex
      end.
      * intros _. exists n, w1.
        split; [reflexivity |]. split; [exact Hdir |]. split; [exact Hex |].
        unfold logger. simpl. apply world_eq; simpl; try reflexivity.
        rewrite <- !app_assoc. reflexivity.
      * match goal with
        | |- context [convert_handler tar true ?e ?w0] =>
            destruct (convert_handler_raises tar true e w0) as (e' & w' & H)
        end.
        rewrite H. discriminate.
    + destruct (convert_handler_raises tar true (OSError (extract_dir_of tar)) w1)
        as (e' & w' & H).
      rewrite H. discriminate.
    + destruct (convert_handler_raises tar true (OSError (extract_dir_of tar)) w1)
        as (e' & w' & H).
      rewrite H. discriminate.
  - destruct (convert_handler_raises tar false e w1) as (e' & w' & H).
    rewrite H. discriminate.
Qed.

(** When the part before [import shutil] returns, the output holds the two
    header lines followed by records. *)
Lemma before_import_output tar out w n w1 :
  convert_before_import E tar out w = (Ok n, w1) ->
  exists records,
    outs w1 !! out =
      Some (Comment ("# Converted from " ++ basename tar)
            :: Comment ("# Conversion timestamp: " ++ date_output E)
            :: map Fasta records).
Proof.
  unfold convert_before_import. unfold bind at 1.
  destruct (convert_extract E tar w) as [[files | e] w2]; [| discriminate].
  unfold convert_entries.
  unfold bind at 1, open_truncate at 1. cbv beta iota.
  unfold bind at 1, write_item at 1. cbv beta iota.
  unfold bind at 1, write_item at 1. cbv beta iota.
  match goal with
  | |- for_each _ files 0 ?w3 = _ -> _ =>
      pose proof (appends_entries E out files 0 w3) as [_ [records Hrec]];
      intros Hrun; rewrite Hrun in Hrec
  end.
  exists records. simpl in Hrec.
  rewrite !lookup_insert_eq in Hrec. simpl in Hrec.
  destruct (outs w1 !! out) as [items |]; simpl in Hrec; [subst items; reflexivity |].
  discriminate.
Qed.

End Success.

(** X3: the output of a run that returns.  When [convert_tar_to_fasta]
    returns, the output file is the two header lines followed by records
    only, and the last line logged is the count of these records. *)
Theorem successful_run_output E tar out w :
  fst (convert_tar_to_fasta E tar out w) = Ok tt ->
  exists records,
    outs (snd (convert_tar_to_fasta E tar out w)) !! out =
      Some (Comment ("# Converted from " ++ basename tar)
            :: Comment ("# Conversion timestamp: " ++ date_output E)
            :: map Fasta records) /\
    exists earlier,
      log (snd (convert_tar_to_fasta E tar out w)) =
        (earlier ++ [InfoCompleted; InfoOutputFile out;
                     InfoTotalInOutput (length records)])%list.
Proof.
  intros Hok.
  destruct (convert_success_inv E tar out w Hok) as (n & w1 & Hb & Hdir & Hex & Hw).
  destruct (before_import_output E tar out w n w1 Hb) as [records Hrec].
  cbv zeta in Hex, Hw. rewrite Hw. cbn [fs outs log stdout] in *.
  assert (Hu : under (extract_dir_of tar) out = false).
  { destruct (under (extract_dir_of tar) out) eqn:Hu; [| reflexivity].
    unfold os_path_exists in Hex. cbn [fs outs] in Hex.
    rewrite !(remove_tree_under _ _ out Hu) in Hex. discriminate. }
  rewrite (remove_tree_lookup _ (outs w1) out Hu), Hrec.
  exists records. split; [reflexivity |].
  exists (log w1). change (default [] (Some ?l)) with l.
  rewrite count_headers_fasta. reflexivity.
Qed.

Lemma successful_run_output_witness :
  exists records,
    outs (snd (convert_tar_to_fasta Sample.env "in.tar.gz" "out.fasta"
                 (Sample.disk "in.tar.gz" "tar: lower case gz"))) !! "out.fasta" =
      Some (Comment "# Converted from in.tar.gz"
            :: Comment "# Conversion timestamp: Tue Nov  3 12:00:00 UTC 2026"
            :: map Fasta records).
Proof.
  destruct (successful_run_output Sample.env "in.tar.gz" "out.fasta"
              (Sample.disk "in.tar.gz" "tar: lower case gz"))
    as (records & Hout & _).
  - vm_compute. reflexivity.
  - exists records. exact Hout.
Defined.

(** X4: a run that returns has removed the working directory and
    everything below it, extracted entries and output files alike. *)
Theorem successful_run_cleans_up E tar out w k :
  fst (convert_tar_to_fasta E tar out w) = Ok tt ->
  under (extract_dir_of tar) k = true ->
  fs (snd (convert_tar_to_fasta E tar out w)) !! k = None /\
  outs (snd (convert_tar_to_fasta E tar out w)) !! k = None.
Proof.
  intros Hok Hk.
  destruct (convert_success_inv E tar out w Hok) as (n & w1 & _ & _ & _ & Hw).
  cbv zeta in Hw. rewrite Hw. cbn [fs outs].
  split; apply remove_tree_under, Hk.
Qed.

Lemma successful_run_cleans_up_witness :
  fs (snd (convert_tar_to_fasta Sample.env "in.tar.gz" "out.fasta"
             (Sample.disk "in.tar.gz" "tar: unparsable text")))
    !! "in.tar.gz_extracted/notes/readme.txt" = None.
Proof.
  apply (successful_run_cleans_up Sample.env "in.tar.gz" "out.fasta"
           (Sample.disk "in.tar.gz" "tar: unparsable text")
           "in.tar.gz_extracted/notes/readme.txt").
  - vm_compute. reflexivity.
  - vm_compute. reflexivity.
Defined.

(** X5: an output path inside the working directory makes the run fail.
    The cleanup removes the output together with the directory, the check
    that follows does not find it, and the run raises "Output file was not
    created" although every entry was converted. *)
Theorem output_inside_working_directory E tar out w n w1 :
  under (extract_dir_of tar) out = true ->
  convert_before_import E tar out w = (Ok n, w1) ->
  fs w1 !! extract_dir_of tar = Some Dir ->
  fst (convert_tar_to_fasta E tar out w)
    = Raise (PlainException "Output file was not created") /\
  outs (snd (convert_tar_to_fasta E tar out w)) !! out = None.
Proof.
  intros Hu Hb Hdir.
  assert (H : convert_tar_to_fasta E tar out w =
    (Raise (PlainException "Output file was not created"),
     mkWorld (remove_tree (extract_dir_of tar) (fs w1))
             (remove_tree (extract_dir_of tar) (outs w1))
             (log w1 ++ [ErrorConversionFailed
                           (PlainException "Output file was not created")])
             (stdout w1))).
  { unfold convert_tar_to_fasta. rewrite Hb.
    unfold convert_after_import, bind at 1, shutil_rmtree. rewrite Hdir.
    unfold os_path_exists at 1. cbn [fs outs].
    rewrite !(remove_tree_under _ _ out Hu).
    unfold convert_handler, bind, logger, os_path_exists. cbn [fs outs log stdout].
    rewrite !(remove_tree_under _ _ _ (under_refl (extract_dir_of tar))).
    reflexivity. }
  rewrite H. split; [reflexivity | apply remove_tree_under, Hu].
Qed.

Lemma output_inside_working_directory_witness :
  fst (convert_tar_to_fasta Sample.env "in.tar.gz" "in.tar.gz_extracted/out.fasta"
         (Sample.disk "in.tar.gz" "tar: ten reads"))
    = Raise (PlainException "Output file was not created").
Proof.
  eapply (output_inside_working_directory Sample.env "in.tar.gz"
            "in.tar.gz_extracted/out.fasta").
  - vm_compute. reflexivity.
  - vm_compute. reflexivity.
  - vm_compute. reflexivity.
Defined.

(** ** The FASTQ converter, read by read and file by file *)

(** X6: the filter on a read with at least one score.  The read is
    written, with its counter incremented, exactly when
    [threshold * len <= sum] over its scores, the bound included;
    otherwise it is counted as filtered and the output is not touched. *)
Theorem read_written_iff_mean_reaches_threshold E out t record quals a b w :
  phred_quality record = Some quals ->
  quals <> [] ->
  fastq_record E out t record (a, b) w =
    if (t * Z.of_nat (length quals) <=? sum quals)%Z
    then (Ok (S a, b),
          set_outs (<[out := (default [] (outs w !! out)
                                ++ [Fasta (fasta_of_read E record)])%list]> (outs w)) w)
    else (Ok (a, S b), w).
Proof.
  intros Hq Hne.
  rewrite fastq_record_accepts
    by (unfold has_mean; rewrite Hq; destruct quals; [congruence | reflexivity]).
  unfold accepts. rewrite Hq.
  pose proof (passes_iff_sum t quals Hne) as Hiff.
  destruct (passes t quals); destruct (Z.leb_spec (t * Z.of_nat (length quals)) (sum quals));
    try reflexivity.
  - exfalso. apply proj1 in Hiff. specialize (Hiff eq_refl). lia.
  - exfalso. apply proj2 in Hiff. specialize (Hiff ltac:(lia)). discriminate.
Qed.

Lemma read_written_iff_mean_reaches_threshold_witness :
  fst (fastq_record Sample.env "out.fasta" 20 (Sample.read "r01" [20; 20; 20; 20]%Z)
         (0, 0)%nat (Sample.disk "in.tar.gz" "tar: ten reads")) = Ok (1, 0)%nat /\
  fst (fastq_record Sample.env "out.fasta" 20 (Sample.read "r04" [19; 19; 19; 22]%Z)
         (0, 0)%nat (Sample.disk "in.tar.gz" "tar: ten reads")) = Ok (0, 1)%nat.
Proof.
  split.
  - rewrite (read_written_iff_mean_reaches_threshold Sample.env "out.fasta" 20
               (Sample.read "r01" [20; 20; 20; 20]%Z) [20; 20; 20; 20]%Z)
      by (reflexivity || discriminate).
    reflexivity.
  - rewrite (read_written_iff_mean_reaches_threshold Sample.env "out.fasta" 20
               (Sample.read "r04" [19; 19; 19; 22]%Z) [19; 19; 19; 22]%Z)
      by (reflexivity || discriminate).
    reflexivity.
Defined.

(** X7: lowering the threshold never loses a read.  A read with a mean
    that is written at threshold [t2] is written at every threshold
    [t1 <= t2]. *)
Theorem lower_threshold_keeps_reads E out t1 t2 record a b w :
  (t1 <= t2)%Z ->
  has_mean record = true ->
  fst (fastq_record E out t2 record (a, b) w) = Ok (S a, b) ->
  fst (fastq_record E out t1 record (a, b) w) = Ok (S a, b).
Proof.
  intros Hle Hmean. rewrite !fastq_record_accepts by exact Hmean.
  unfold accepts. destruct (phred_quality record) as [quals |] eqn:Hq; [| auto].
  assert (Hne : quals <> []).
  { unfold has_mean in Hmean. rewrite Hq in Hmean. destruct quals; congruence. }
  pose proof (passes_iff_sum t1 quals Hne) as H1.
  pose proof (passes_iff_sum t2 quals Hne) as H2.
  destruct (passes t2 quals); simpl.
  - intros _. replace (passes t1 quals) with true; [reflexivity |].
    symmetry. apply H1. apply proj1 in H2. specialize (H2 eq_refl). nia.
  - intros H. injection H as H. lia.
Qed.

Lemma lower_threshold_keeps_reads_witness :
  fst (fastq_record Sample.env "out.fasta" 10 (Sample.read "r05" [25; 25; 25; 25]%Z)
         (0, 0)%nat (Sample.disk "in.tar.gz" "tar: ten reads")) = Ok (1, 0)%nat.
Proof.
  apply (lower_threshold_keeps_reads Sample.env "out.fasta" 10 20).
  - lia.
  - reflexivity.
  - vm_compute. reflexivity.
Defined.

(** X8: a FASTQ file that breaks midway keeps what was converted.  When
    the parser yields records and then raises, the accepted reads among
    them are already in the output when [process_fastq_to_fasta] logs the
    error and raises the same exception; the two counters are lost. *)
Theorem fastq_failure_keeps_earlier_reads E file out t w c records e :
  fs w !! file = Some (File c) ->
  decoded E fastq file c = (records, Some e) ->
  Forall (fun r => has_mean r = true) records ->
  process_fastq_to_fasta E file out t w =
    (Raise e,
     mkWorld (fs w)
       (<[out := (default [] (outs w !! out)
                    ++ map (fun r => Fasta (fasta_of_read E r))
                         (List.filter (accepts t) records))%list]> (outs w))
       (log w ++ [ErrorFastq file e])
       (stdout w)).
Proof.
  intros Hf Hdec Hall. unfold decoded in Hdec.
  unfold process_fastq_to_fasta, try_except.
  unfold bind at 1. unfold open_text. unfold bind at 1. unfold read_file.
  rewrite Hf. cbv beta iota. unfold ret at 1. cbv beta iota.
  unfold bind at 1. unfold open_append at 1. cbv beta iota.
  unfold bind at 1. unfold for_parsed. unfold bind at 1.
  rewrite Hdec. cbn [fst snd].
  rewrite (fastq_loop E out t records 0 0 _ (default [] (outs w !! out)) Hall)
    by (simpl; apply lookup_insert_eq).
  cbv beta iota. unfold raise at 1. cbv beta iota.
  unfold bind, logger, raise. simpl. f_equal.
  apply world_eq; simpl; try reflexivity.
  rewrite insert_insert_eq. reflexivity.
Qed.

Lemma fastq_failure_keeps_earlier_reads_witness :
  let env := mkEnv Sample.members Sample.decompress
               (fun fmt text => (Sample.ten_reads, Some (ParseError fmt)))
               "" Sample.one_decimal None in
  let w := mkWorld {[ "reads.fq" := File "ten reads, then garbage" ]} ∅ [] [] in
  fst (process_fastq_to_fasta env "reads.fq" "out.fasta" 20 w) = Raise (ParseError fastq) /\
  count_headers
    (default [] (outs (snd (process_fastq_to_fasta env "reads.fq" "out.fasta" 20 w))
                   !! "out.fasta")) = 6%nat.
Proof.
  intros env w.
  rewrite (fastq_failure_keeps_earlier_reads env "reads.fq" "out.fasta" 20 w
             "ten reads, then garbage" Sample.ten_reads (ParseError fastq)).
  - split; vm_compute; reflexivity.
  - reflexivity.
  - reflexivity.
  - repeat constructor.
Defined.

(** X9: a FASTQ file that cannot be opened leaves the output alone.  The
    input is opened before the output: when the path is missing or is a
    directory, the converter logs the error and raises without creating
    or touching the output file. *)
Theorem fastq_missing_input E file out t w :
  (forall c, fs w !! file <> Some (File c)) ->
  process_fastq_to_fasta E file out t w =
    (Raise (OSError file),
     mkWorld (fs w) (outs w) (log w ++ [ErrorFastq file (OSError file)]) (stdout w)).
Proof.
  intros Hf. unfold process_fastq_to_fasta, try_except.
  unfold bind at 1. unfold open_text. unfold bind at 1. unfold read_file.
  destruct (fs w !! file) as [[| c] |] eqn:Hn; try reflexivity.
  exfalso. apply (Hf c). reflexivity.
Qed.

Lemma fastq_missing_input_witness :
  outs (snd (process_fastq_to_fasta Sample.env "gone.fastq" "out.fasta" 20
               (Sample.disk "in.tar.gz" "tar: ten reads"))) !! "out.fasta" = None.
Proof.
  rewrite (fastq_missing_input Sample.env "gone.fastq" "out.fasta" 20).
  - reflexivity.
  - intros c. vm_compute. discriminate.
Defined.

(** X10: the counters of the FASTQ converter add up.  On a file that
    decodes, each record with a mean, every record is either written or
    filtered: the two logged counters sum to the number of records, and
    the output grows by exactly the number logged as converted. *)
Theorem fastq_counters_add_up E file out t w c records :
  fs w !! file = Some (File c) ->
  decoded E fastq file c = (records, None) ->
  Forall (fun r => has_mean r = true) records ->
  exists written filtered,
    fst (process_fastq_to_fasta E file out t w) = Ok tt /\
    log (snd (process_fastq_to_fasta E file out t w)) =
      (log w ++ [InfoConvertedFrom written file; InfoFilteredOut filtered])%list /\
    (written + filtered = length records)%nat /\
    length (default [] (outs (snd (process_fastq_to_fasta E file out t w)) !! out)) =
      (length (default [] (outs w !! out)) + written)%nat.
Proof.
  intros Hf Hdec Hall.
  rewrite (process_fastq_decodes E file out t w c records Hf Hdec Hall).
  exists (length (List.filter (accepts t) records)),
         (length (List.filter (fun r => negb (accepts t r)) records)).
  cbn [fst snd fs outs log stdout].
  split; [reflexivity |]. split; [reflexivity |].
  split; [apply List.filter_length |].
  rewrite lookup_insert_eq. cbn [default from_option id].
  rewrite length_app, length_map. reflexivity.
Qed.

Lemma fastq_counters_add_up_witness :
  exists written filtered,
    log (snd (process_fastq_to_fasta Sample.env "reads.fastq" "out.fasta" 20
                (mkWorld {[ "reads.fastq" := File "ten reads" ]} ∅ [] []))) =
      [InfoConvertedFrom written "reads.fastq"; InfoFilteredOut filtered] /\
    (written + filtered = 10)%nat.
Proof.
  destruct (fastq_counters_add_up Sample.env "reads.fastq" "out.fasta" 20
              (mkWorld {[ "reads.fastq" := File "ten reads" ]} ∅ [] [])
              "ten reads" Sample.ten_reads)
    as (written & filtered & _ & Hlog & Hsum & _).
  - reflexivity.
  - reflexivity.
  - repeat constructor.
  - exists written, filtered. split; [exact Hlog | exact Hsum].
Defined.

(** ** The other branches of the dispatch *)

(** The copying loop on the output just opened for appending. *)
Lemma write_all_after_open out records n w :
  for_each (fun record n => run write_item out (Fasta record); ret (S n)) records n
    (set_outs (<[out := default [] (outs w !! out)]> (outs w)) w) =
    (Ok (n + length records)%nat,
     mkWorld (fs w)
       (<[out := (default [] (outs w !! out) ++ map Fasta records)%list]> (outs w))
       (log w) (stdout w)).
Proof.
  rewrite write_all. f_equal. destruct records as [| r records].
  - simpl. rewrite app_nil_r. reflexivity.
  - apply world_eq; simpl; try reflexivity.
    rewrite lookup_insert_eq. simpl. rewrite insert_insert_eq. reflexivity.
Qed.

(** X11: an assembled-sequence entry is copied without a filter.  Every
    record the parser yields is appended to the output in order, whatever
    its quality annotations; when the parser ends normally
    [total_sequences] grows by the number of records, and when it ends with
    an exception the records yielded before it stay in the output and the
    exception leaves the loop, unlogged. *)
Theorem assembled_entry_copied E out p total w c records err :
  fs w !! p = Some (File c) ->
  classify p = Assembled ->
  decoded E fasta p c = (records, err) ->
  process_entry E out p total w =
    (match err with
     | None => Ok (total + length records)%nat
     | Some e => Raise e
     end,
     mkWorld (fs w)
       (<[out := (default [] (outs w !! out) ++ map Fasta records)%list]> (outs w))
       (log w ++ [InfoProcessingFasta p]) (stdout w)).
Proof.
  intros Hf Hcat Hdec. unfold decoded in Hdec.
  unfold process_entry, os_path_isfile. rewrite Hf.
  unfold classify in Hcat. cbv zeta in *.
  destruct (endswith_any (lower p) [".fastq"; ".fastq.gz"; ".fq"; ".fq.gz"]);
    [discriminate |].
  destruct (endswith_any (lower p) [".fasta"; ".fasta.gz"; ".fa"; ".fa.gz"; ".fas"]).
  - unfold bind at 1. unfold logger at 1. cbv beta iota.
    unfold bind at 1. unfold open_text. unfold bind at 1. unfold read_file.
    cbn [fs]. rewrite Hf. cbv beta iota. unfold ret at 1. cbv beta iota.
    unfold bind at 1. unfold open_append at 1. cbv beta iota.
    unfold for_parsed. unfold bind at 1. rewrite Hdec. cbn [fst snd].
    rewrite write_all_after_open. cbn [fs outs log stdout].
    destruct err as [e |]; reflexivity.
  - destruct (endswith_any (lower p) [".gb"; ".gbk"; ".genbank"]); [discriminate |].
    destruct (endswith (lower p) ".txt"); discriminate.
Qed.

Lemma assembled_entry_copied_witness :
  let w := mkWorld {[ "x/contigs.fa" := File "two contigs" ]} ∅ [] [] in
  fst (process_entry Sample.env "out.fasta" "x/contigs.fa" 5 w) = Ok 7%nat /\
  outs (snd (process_entry Sample.env "out.fasta" "x/contigs.fa" 5 w)) !! "out.fasta"
    = Some [Fasta (Sample.contig "c1"); Fasta (Sample.contig "c2")].
Proof.
  intros w.
  rewrite (assembled_entry_copied Sample.env "out.fasta" "x/contigs.fa" 5 w
             "two contigs" [Sample.contig "c1"; Sample.contig "c2"] None).
  - split; vm_compute; reflexivity.
  - reflexivity.
  - vm_compute. reflexivity.
  - vm_compute. reflexivity.
Defined.

(** An entry of no recognised suffix is logged and skipped. *)
Lemma process_entry_unknown E out p total w :
  classify p = Unknown ->
  process_entry E out p total w =
    (Ok total,
     if os_path_isfile p w
     then mkWorld (fs w) (outs w) (log w ++ [InfoSkippingUnknown p]) (stdout w)
     else w).
Proof.
  intros Hcat. unfold process_entry.
  destruct (os_path_isfile p w); [| reflexivity].
  unfold classify in Hcat. cbv zeta in *.
  destruct (endswith_any (lower p) [".fastq"; ".fastq.gz"; ".fq"; ".fq.gz"]);
    [discriminate |].
  destruct (endswith_any (lower p) [".fasta"; ".fasta.gz"; ".fa"; ".fa.gz"; ".fas"]);
    [discriminate |].
  destruct (endswith_any (lower p) [".gb"; ".gbk"; ".genbank"]); [discriminate |].
  destruct (endswith (lower p) ".txt"); [discriminate |].
  reflexivity.
Qed.

(** X12: entries that are skipped cost nothing.  When every extracted
    path is a directory (or otherwise not a regular file) or is an ASCII
    path with no recognised suffix, the loop over the entries returns with
    [total_sequences] unchanged, leaves the disk and the output as they
    were, and logs one "skipping" line per regular file, in order;
    directories are passed over without a line. *)
Theorem skipped_entries_change_nothing E out files total w :
  Forall (fun p => os_path_isfile p w = false
                   \/ (is_ascii p = true /\ classify p = Unknown)) files ->
  for_each (process_entry E out) files total w =
    (Ok total,
     mkWorld (fs w) (outs w)
       (log w ++ map InfoSkippingUnknown
                  (List.filter (fun p => os_path_isfile p w) files))
       (stdout w)).
Proof.
  intros Hall.
  assert (Hgen : forall l,
    for_each (process_entry E out) files total
      (mkWorld (fs w) (outs w) l (stdout w)) =
    (Ok total,
     mkWorld (fs w) (outs w)
       (l ++ map InfoSkippingUnknown (List.filter (fun p => os_path_isfile p w) files))
       (stdout w))).
  { induction Hall as [| p files Hp Hrest IH]; intros l.
    - simpl. unfold ret. rewrite app_nil_r. reflexivity.
    - cbn [for_each List.filter]. unfold bind.
      assert (Hfile : os_path_isfile p (mkWorld (fs w) (outs w) l (stdout w))
                      = os_path_isfile p w) by reflexivity.
      destruct (os_path_isfile p w) eqn:Hisfile.
      + destruct Hp as [Hp | [_ Hp]]; [discriminate |].
        rewrite (process_entry_unknown E out p total _ Hp), Hfile.
        cbn [fs outs log stdout]. rewrite IH. cbn [map].
        rewrite <- app_assoc. reflexivity.
      + unfold process_entry. rewrite Hfile. apply IH. }
  specialize (Hgen (log w)). destruct w. exact Hgen.
Qed.

Lemma skipped_entries_change_nothing_witness :
  let w := mkWorld {[ "x/docs" := Dir; "x/notes.md" := File "words";
                      "x/reads.bam" := File "binary" ]} ∅ [] [] in
  for_each (process_entry Sample.env "out.fasta") ["x/docs"; "x/notes.md"; "x/reads.bam"] 0 w =
    (Ok 0%nat,
     mkWorld (fs w) ∅ [InfoSkippingUnknown "x/notes.md"; InfoSkippingUnknown "x/reads.bam"] []).
Proof.
  intros w.
  rewrite (skipped_entries_change_nothing Sample.env "out.fasta"
             ["x/docs"; "x/notes.md"; "x/reads.bam"] 0 w).
  - vm_compute. reflexivity.
  - repeat constructor;
      (left; vm_compute; reflexivity) || (right; split; vm_compute; reflexivity).
Defined.

(** ** The command line *)

Section StandardOutput.

Variable E : Env.

Lemma keeps_stdout_logger ev : keeps stdout (logger ev).
Proof. intros w. reflexivity. Qed.

Lemma keeps_stdout_write_item p x : keeps stdout (write_item p x).
Proof. intros w. reflexivity. Qed.

Lemma keeps_stdout_open_append p : keeps stdout (open_append p).
Proof. intros w. reflexivity. Qed.

Lemma keeps_stdout_open_truncate p : keeps stdout (open_truncate p).
Proof. intros w. reflexivity. Qed.

Lemma keeps_stdout_makedirs p : keeps stdout (os_makedirs_exist_ok p).
Proof.
  intros w. unfold os_makedirs_exist_ok.
  destruct (fs w !! p) as [[| c] |]; destruct (outs w !! p); reflexivity.
Qed.

Lemma keeps_stdout_rmtree p : keeps stdout (shutil_rmtree p).
Proof. intros w. unfold shutil_rmtree. destruct (fs w !! p) as [[| c] |]; reflexivity. Qed.

#[local] Hint Resolve keeps_stdout_logger keeps_stdout_write_item keeps_stdout_open_append
  keeps_stdout_open_truncate keeps_stdout_makedirs keeps_stdout_rmtree : frame.

Lemma keeps_stdout_extract tar dir : keeps stdout (extract_tar_gz E tar dir).
Proof. unfold extract_tar_gz. frame. intros w. reflexivity. Qed.
#[local] Hint Resolve keeps_stdout_extract : frame.

Lemma keeps_stdout_fastq_record out t record n : keeps stdout (fastq_record E out t record n).
Proof.
  unfold fastq_record. destruct (phred_quality record) as [quals |]; [| frame].
  destruct (average quals) as [avg |]; [| frame].
  destruct (Qle_bool _ _); frame.
Qed.
#[local] Hint Resolve keeps_stdout_fastq_record : frame.

Lemma keeps_stdout_open_text file : keeps stdout (open_text E file).
Proof. unfold open_text. frame. Qed.
#[local] Hint Resolve keeps_stdout_open_text : frame.

Lemma keeps_stdout_process_fastq file out t :
  keeps stdout (process_fastq_to_fasta E file out t).
Proof. unfold process_fastq_to_fasta. frame. Qed.
#[local] Hint Resolve keeps_stdout_process_fastq : frame.

Lemma keeps_stdout_probe input out formats n : keeps stdout (probe E input out formats n).
Proof.
  intros w.
  apply (probe_invariant E (fun w1 w2 => stdout w2 = stdout w1) input out);
    try reflexivity.
  intros w1 w2 w3 H12 H23. congruence.
Qed.
#[local] Hint Resolve keeps_stdout_probe : frame.

Lemma keeps_stdout_process_generic input out :
  keeps stdout (process_generic_sequences E input out).
Proof. unfold process_generic_sequences. frame. Qed.
#[local] Hint Resolve keeps_stdout_process_generic : frame.

Lemma keeps_stdout_process_entry out file total :
  keeps stdout (process_entry E out file total).
Proof.
  intros w. unfold process_entry.
  destruct (os_path_isfile file w); [| reflexivity].
  repeat match goal with
         | |- context [if ?b then _ else _] => destruct b
         end;
    match goal with
    | |- stdout (snd (?m w)) = stdout w => revert w; change (keeps stdout m)
    end; frame.
Qed.
#[local] Hint Resolve keeps_stdout_process_entry : frame.

Lemma keeps_stdout_before_import tar out : keeps stdout (convert_before_import E tar out).
Proof. unfold convert_before_import, convert_extract, convert_entries. frame. Qed.

Lemma keeps_stdout_after_import tar out : keeps stdout (convert_after_import tar out).
Proof.
  unfold convert_after_import. apply keeps_bind; [frame |].
  intros _ w. destruct (os_path_exists out w); reflexivity.
Qed.

Lemma keeps_stdout_handler tar bound e : keeps stdout (convert_handler tar bound e).
Proof.
  unfold convert_handler. apply keeps_bind; [frame |]. intros _.
  apply keeps_bind; [| intros _; frame].
  intros w. destruct (os_path_exists _ w); [| reflexivity].
  destruct bound; [apply keeps_stdout_rmtree | reflexivity].
Qed.

(** The orchestrator prints nothing. *)
Lemma keeps_stdout_convert tar out : keeps stdout (convert_tar_to_fasta E tar out).
Proof.
  intros w. unfold convert_tar_to_fasta.
  pose proof (keeps_stdout_before_import tar out w) as Hb.
  destruct (convert_before_import E tar out w) as [[n | e] w1]; simpl in Hb.
  - pose proof (keeps_stdout_after_import tar out w1) as Ha.
    destruct (convert_after_import tar out w1) as [[[] | e] w2]; simpl in Ha.
    + simpl. congruence.
    + rewrite keeps_stdout_handler. congruence.
  - rewrite keeps_stdout_handler. exact Hb.
Qed.

End StandardOutput.

Section Main.

Variable E : Env.

(** [main] once the three checks have passed: the output directory is
    made when it is missing, outside every [try]; then the conversion runs,
    and its outcome decides the line printed and the exit. *)
Lemma main_after_validation args w v :
  Bio_version E = Some v ->
  os_path_exists (input_file args) w = true ->
  endswith_any (lower (input_file args)) [".tar.gz"; ".tgz"] = true ->
  main E args w =
    let w1 := mkWorld (fs w) (outs w) (log w ++ [InfoBioVersion v]) (stdout w) in
    let output_dir := dirname (output_file args) in
    match (if negb (String.eqb output_dir "") && negb (os_path_exists output_dir w1)
           then os_makedirs output_dir w1 else (Ok tt, w1)) with
    | (Raise e, w2) => (Raise e, w2)
    | (Ok _, w2) =>
        match convert_tar_to_fasta E (input_file args) (output_file args) w2 with
        | (Ok _, w3) =>
            (Ok tt,
             mkWorld (fs w3) (outs w3) (log w3 ++ [InfoMainCompleted])
               (stdout w3 ++ [PrintSuccess (input_file args) (output_file args)]))
        | (Raise e, w3) =>
            (Raise (SystemExit 1),
             mkWorld (fs w3) (outs w3) (log w3 ++ [ErrorConversionFailed e])
               (stdout w3 ++ [PrintError e]))
        end
    end.
Proof.
  intros Hbio Hex Hext. unfold main, validate_dependencies. rewrite Hbio, Hext.
  unfold bind at 1. unfold bind at 1. unfold logger at 1. cbv beta iota.
  unfold ret at 1. cbv beta iota.
  unfold bind at 1. unfold ret at 1. cbv beta iota.
  unfold bind at 1.
  replace (os_path_exists (input_file args)
             (mkWorld (fs w) (outs w) (log w ++ [InfoBioVersion v]) (stdout w)))
    with true by (symmetry; exact Hex).
  cbv beta iota. unfold bind at 1. unfold ret at 1. cbv beta iota zeta.
  unfold bind at 1.
  destruct (if negb (String.eqb (dirname (output_file args)) "")
               && negb (os_path_exists (dirname (output_file args))
                          (mkWorld (fs w) (outs w) (log w ++ [InfoBioVersion v]) (stdout w)))
            then os_makedirs (dirname (output_file args))
                   (mkWorld (fs w) (outs w) (log w ++ [InfoBioVersion v]) (stdout w))
            else (Ok tt, mkWorld (fs w) (outs w) (log w ++ [InfoBioVersion v]) (stdout w)))
    as [[[] | e] w2]; [| reflexivity].
  unfold try_except. unfold bind at 1.
  destruct (convert_tar_to_fasta E (input_file args) (output_file args) w2)
    as [[[] | e] w3]; reflexivity.
Qed.

End Main.

(** X13: the exit and the summary line of [main].  Let the three checks
    pass and let the output go to the current directory or to a directory
    that is there, so that none has to be made.  Then [main] runs the
    conversion, which prints nothing, and prints one line: when the
    conversion returns, the SUCCESS line, and [main] returns; when the
    conversion raises [e], the ERROR line with this [e], after logging it,
    and [main] exits with status 1.  The exception of the conversion does
    not reach the caller of [main]. *)
Theorem main_exit_and_summary E args w v :
  Bio_version E = Some v ->
  os_path_exists (input_file args) w = true ->
  endswith_any (lower (input_file args)) [".tar.gz"; ".tgz"] = true ->
  dirname (output_file args) = ""
    \/ is_directory (dirname (output_file args)) w = true ->
  match convert_tar_to_fasta E (input_file args) (output_file args)
          (mkWorld (fs w) (outs w) (log w ++ [InfoBioVersion v]) (stdout w)) with
  | (Ok _, w3) =>
      main E args w =
        (Ok tt,
         mkWorld (fs w3) (outs w3) (log w3 ++ [InfoMainCompleted])
           (stdout w ++ [PrintSuccess (input_file args) (output_file args)]))
  | (Raise e, w3) =>
      main E args w =
        (Raise (SystemExit 1),
         mkWorld (fs w3) (outs w3) (log w3 ++ [ErrorConversionFailed e])
           (stdout w ++ [PrintError e]))
  end.
Proof.
  intros Hbio Hex Hext Hdir.
  rewrite (main_after_validation E args w v Hbio Hex Hext). cbv zeta.
  assert (Hskip :
    negb (String.eqb (dirname (output_file args)) "")
    && negb (os_path_exists (dirname (output_file args))
               (mkWorld (fs w) (outs w) (log w ++ [InfoBioVersion v]) (stdout w)))
    = false).
  { destruct Hdir as [-> | Hthere]; [reflexivity |].
    change (os_path_exists (dirname (output_file args))
              (mkWorld (fs w) (outs w) (log w ++ [InfoBioVersion v]) (stdout w)))
      with (os_path_exists (dirname (output_file args)) w).
    assert (Hexists : os_path_exists (dirname (output_file args)) w = true).
    { unfold is_directory in Hthere. unfold os_path_exists.
      destruct (fs w !! dirname (output_file args)) as [[| c] |];
        [reflexivity | discriminate | discriminate]. }
    rewrite Hexists. apply andb_false_r. }
  rewrite Hskip.
  pose proof (keeps_stdout_convert E (input_file args) (output_file args)
                (mkWorld (fs w) (outs w) (log w ++ [InfoBioVersion v]) (stdout w))) as Hk.
  destruct (convert_tar_to_fasta E (input_file args) (output_file args) _)
    as [[[] | e] w3]; cbn [snd stdout] in Hk; rewrite Hk; reflexivity.
Qed.

(** A run of [main] on the archive whose second entry does not decode: the
    line printed carries the exception that the conversion raised, which
    is the [UnboundLocalError] of the cleanup. *)
Lemma main_exit_and_summary_witness :
  main Sample.env (mkArgs "in.tar.gz" "out.fasta" 20)
       (Sample.disk "in.tar.gz" "tar: valid then corrupt")
  = (Raise (SystemExit 1),
     snd (main Sample.env (mkArgs "in.tar.gz" "out.fasta" 20)
            (Sample.disk "in.tar.gz" "tar: valid then corrupt"))) /\
  stdout (snd (main Sample.env (mkArgs "in.tar.gz" "out.fasta" 20)
                 (Sample.disk "in.tar.gz" "tar: valid then corrupt")))
  = [PrintError (UnboundLocalError "shutil")].
Proof.
  set (args := mkArgs "in.tar.gz" "out.fasta" 20).
  set (w := Sample.disk "in.tar.gz" "tar: valid then corrupt").
  assert (Hbio : Bio_version Sample.env = Some "1.83") by reflexivity.
  assert (Hex : os_path_exists (input_file args) w = true) by (vm_compute; reflexivity).
  assert (Hext : endswith_any (lower (input_file args)) [".tar.gz"; ".tgz"] = true)
    by (vm_compute; reflexivity).
  assert (Hdir : dirname (output_file args) = ""
                 \/ is_directory (dirname (output_file args)) w = true)
    by (left; vm_compute; reflexivity).
  pose proof (main_exit_and_summary Sample.env args w "1.83" Hbio Hex Hext Hdir) as H.
  assert (Hc : exists w3,
    convert_tar_to_fasta Sample.env (input_file args) (output_file args)
      (mkWorld (fs w) (outs w) (log w ++ [InfoBioVersion "1.83"]) (stdout w))
    = (Raise (UnboundLocalError "shutil"), w3))
    by (eexists; vm_compute; reflexivity).
  destruct Hc as [w3 Hc]. rewrite Hc in H. rewrite H.
  split; reflexivity.
Defined.

(** X14: a rejected command line touches nothing.  When Biopython is
    missing, the input path does not exist, or the input name does not end
    in [.tar.gz] or [.tgz] (in any letter case), [main] exits with status 1
    without creating a directory, opening the archive, writing an output
    file or printing a line. *)
Theorem main_rejects_before_touching_disk E args w :
  Bio_version E = None \/
  os_path_exists (input_file args) w = false \/
  endswith_any (lower (input_file args)) [".tar.gz"; ".tgz"] = false ->
  fst (main E args w) = Raise (SystemExit 1) /\
  fs (snd (main E args w)) = fs w /\
  outs (snd (main E args w)) = outs w /\
  stdout (snd (main E args w)) = stdout w.
Proof.
  intros H.
  assert (Hmain : exists l,
    main E args w = (Raise (SystemExit 1), mkWorld (fs w) (outs w) l (stdout w))).
  { unfold main, validate_dependencies.
    destruct (Bio_version E) as [v |] eqn:Hbio.
    - destruct H as [H | H]; [discriminate |].
      unfold bind at 1. unfold bind at 1. unfold logger at 1. cbv beta iota.
      unfold ret at 1. cbv beta iota.
      unfold bind at 1. unfold ret at 1. cbv beta iota.
      unfold bind at 1.
      change (os_path_exists (input_file args)
                (mkWorld (fs w) (outs w) (log w ++ [InfoBioVersion v]) (stdout w)))
        with (os_path_exists (input_file args) w).
      destruct (os_path_exists (input_file args) w) eqn:Hex.
      + destruct H as [H | H]; [discriminate |]. rewrite H.
        cbv beta iota. unfold bind, logger, sys_exit, raise. simpl. eauto.
      + unfold bind, logger, sys_exit, raise. simpl. eauto.
    - unfold bind, logger, ret, sys_exit, raise. simpl. eauto. }
  destruct Hmain as [l Hmain]. rewrite Hmain. repeat split.
Qed.

Lemma main_rejects_before_touching_disk_witness :
  let w := Sample.disk "reads.zip" "tar: ten reads" in
  fst (main Sample.env (mkArgs "reads.zip" "out/o.fasta" 20) w) = Raise (SystemExit 1) /\
  fs (snd (main Sample.env (mkArgs "reads.zip" "out/o.fasta" 20) w)) = fs w.
Proof.
  intros w.
  destruct (main_rejects_before_touching_disk Sample.env
              (mkArgs "reads.zip" "out/o.fasta" 20) w)
    as (Hexit & Hfs & _).
  - right. right. vm_compute. reflexivity.
  - split; [exact Hexit | exact Hfs].
Defined.

(** ** The archive without entries *)




(** ** What a failed run leaves behind *)

Lemma default_cons {A} (o : option (list A)) a l :
  default [] o = a :: l -> o = Some (a :: l).
Proof. destruct o as [items |]; simpl; [intros ->; reflexivity | discriminate]. Qed.

(** The loop over the entries starts from an output that holds the two
    header lines. *)
Lemma convert_entries_eq E tar out files w2 :
  convert_entries E tar out files w2 =
    for_each (process_entry E out) files 0%nat
      (set_outs (<[out := [Comment ("# Converted from " ++ basename tar);
                           Comment ("# Conversion timestamp: " ++ date_output E)]]>
                   (outs w2)) w2).
Proof.
  unfold convert_entries.
  unfold bind at 1, open_truncate at 1. cbv beta iota.
  unfold bind at 1, write_item at 1. cbv beta iota.
  unfold bind at 1, write_item at 1. cbv beta iota.
  f_equal. apply world_eq; simpl; try reflexivity.
  rewrite !lookup_insert_eq. simpl. rewrite !insert_insert_eq. reflexivity.
Qed.

(** Once the extraction has succeeded, the output holds the header and
    records when the part before [import shutil] stops, however it
    stops. *)
Lemma entries_output E tar out w files w2 :
  convert_extract E tar w = (Ok files, w2) ->
  exists records,
    outs (snd (convert_before_import E tar out w)) !! out =
      Some (Comment ("# Converted from " ++ basename tar)
            :: Comment ("# Conversion timestamp: " ++ date_output E)
            :: map Fasta records).
Proof.
  intros Hex. unfold convert_before_import. unfold bind at 1. rewrite Hex.
  rewrite convert_entries_eq.
  match goal with
  | |- context [for_each _ files 0 ?w3] =>
      pose proof (appends_entries E out files 0 w3) as [_ [records Hrec]]
  end.
  exists records. cbn [outs set_outs] in Hrec.
  rewrite lookup_insert_eq in Hrec. apply default_cons. exact Hrec.
Qed.

(** A loop over two lists in a row. *)
Lemma for_each_app {A S} (body : A -> S -> M S) l1 l2 s w :
  for_each body (l1 ++ l2) s w =
    match for_each body l1 s w with
    | (Ok s', w') => for_each body l2 s' w'
    | (Raise e, w') => (Raise e, w')
    end.
Proof.
  revert s w. induction l1 as [| x l1 IH]; intros s w; [reflexivity |].
  cbn [app for_each]. unfold bind.
  destruct (body x s w) as [[s' | e] w']; [apply IH | reflexivity].
Qed.

(** X16: a run that fails on an entry leaves a partial output.  Let the
    extraction succeed, let the header and the entries before [p] go
    through, leaving [kept] in the output, and let the entry [p] raise.
    Then the run raises as well, the entries after [p] are not looked at,
    and the caller finds every output file as it was when [p] raised: the
    output holds the two header lines, the records [kept] of the entries
    before [p], and the records that [p] wrote before it failed.  Nothing
    is removed or emptied. *)
Theorem failed_run_leaves_partial_output E tar out w done p rest w2 n w3 e w4 kept :
  convert_extract E tar w = (Ok (done ++ p :: rest)%list, w2) ->
  convert_entries E tar out done w2 = (Ok n, w3) ->
  outs w3 !! out =
    Some (Comment ("# Converted from " ++ basename tar)
          :: Comment ("# Conversion timestamp: " ++ date_output E)
          :: map Fasta kept) ->
  process_entry E out p n w3 = (Raise e, w4) ->
  fst (convert_tar_to_fasta E tar out w) <> Ok tt /\
  outs (snd (convert_tar_to_fasta E tar out w)) = outs w4 /\
  exists partial,
    outs (snd (convert_tar_to_fasta E tar out w)) !! out =
      Some (Comment ("# Converted from " ++ basename tar)
            :: Comment ("# Conversion timestamp: " ++ date_output E)
            :: map Fasta (kept ++ partial)).
Proof.
  intros Hex Hdone Hkept Hp.
  assert (Hb : convert_before_import E tar out w = (Raise e, w4)).
  { unfold convert_before_import. unfold bind at 1. rewrite Hex.
    rewrite convert_entries_eq, for_each_app.
    rewrite convert_entries_eq in Hdone. rewrite Hdone.
    cbn [for_each]. unfold bind at 1. rewrite Hp. reflexivity. }
  assert (Houts : outs (snd (convert_tar_to_fasta E tar out w)) = outs w4).
  { unfold convert_tar_to_fasta. rewrite Hb.
    unfold convert_handler, bind, logger. cbn [fs outs log stdout].
    destruct (os_path_exists (extract_dir_of tar) _); reflexivity. }
  split; [| split; [exact Houts |]].
  - unfold convert_tar_to_fasta. rewrite Hb.
    destruct (convert_handler_raises tar false e w4) as (e' & w' & H).
    rewrite H. discriminate.
  - rewrite Houts.
    pose proof (appends_process_entry E out p n w3) as [_ [partial Hpartial]].
    rewrite Hp in Hpartial. cbn [snd] in Hpartial.
    rewrite Hkept in Hpartial. cbn [default from_option id] in Hpartial.
    exists partial. apply default_cons.
    rewrite Hpartial, map_app. reflexivity.
Qed.

(** On the sample archive whose first entry holds ten reads and whose
    second entry does not decode, the six reads that passed the filter are
    in the output when the run has failed. *)
Lemma failed_run_leaves_partial_output_witness :
  outs (snd (convert_tar_to_fasta Sample.env "in.tar.gz" "out.fasta"
               (Sample.disk "in.tar.gz" "tar: valid then corrupt"))) !! "out.fasta" =
    Some (Comment "# Converted from in.tar.gz"
          :: Comment "# Conversion timestamp: Tue Nov  3 12:00:00 UTC 2026"
          :: map (fun r => Fasta (fasta_of_read Sample.env r))
                 (List.filter (accepts 20) Sample.ten_reads)).
Proof.
  set (w := Sample.disk "in.tar.gz" "tar: valid then corrupt").
  set (w2 := snd (convert_extract Sample.env "in.tar.gz" w)).
  set (w3 := snd (convert_entries Sample.env "in.tar.gz" "out.fasta"
                    ["in.tar.gz_extracted/reads.fastq"] w2)).
  set (w4 := snd (process_entry Sample.env "out.fasta" "in.tar.gz_extracted/bad.fastq"
                    0 w3)).
  set (kept := map (fasta_of_read Sample.env) (List.filter (accepts 20) Sample.ten_reads)).
  assert (Hex : convert_extract Sample.env "in.tar.gz" w =
                (Ok (["in.tar.gz_extracted/reads.fastq"]
                       ++ "in.tar.gz_extracted/bad.fastq" :: [])%list, w2))
    by (vm_compute; reflexivity).
  assert (Hdone : convert_entries Sample.env "in.tar.gz" "out.fasta"
                    ["in.tar.gz_extracted/reads.fastq"] w2 = (Ok 0%nat, w3))
    by (vm_compute; reflexivity).
  assert (Hkept : outs w3 !! "out.fasta" =
            Some (Comment ("# Converted from " ++ basename "in.tar.gz")
                  :: Comment ("# Conversion timestamp: " ++ date_output Sample.env)
                  :: map Fasta kept))
    by (vm_compute; reflexivity).
  assert (Hp : process_entry Sample.env "out.fasta" "in.tar.gz_extracted/bad.fastq" 0 w3
               = (Raise (ParseError fastq), w4))
    by (vm_compute; reflexivity).
  destruct (failed_run_leaves_partial_output Sample.env "in.tar.gz" "out.fasta" w
              ["in.tar.gz_extracted/reads.fastq"] "in.tar.gz_extracted/bad.fastq" []
              w2 0%nat w3 (ParseError fastq) w4 kept Hex Hdone Hkept Hp)
    as (_ & Houts & _).
  rewrite Houts. vm_compute. reflexivity.
Defined.

(** ** The order of the candidates of the prober *)

(** X17: the first candidate that delivers records wins.  Let the formats
    before [fmt] in [fasta; genbank; embl; swiss] deliver nothing for the
    file (it cannot be opened, the parser raises, or it ends without a
    record), let [fmt] deliver at least one record and let [SeqIO.write]
    render all of them.  Then [process_generic_sequences] appends exactly
    these records to the output, in order, logs the format detected and
    the number of sequences converted, and returns; what the formats after
    [fmt] would deliver plays no part. *)
Theorem prober_first_rendered_candidate_wins E input out w pre fmt post :
  [fasta; genbank; embl; swiss] = (pre ++ fmt :: post)%list ->
  Forall (fun f => candidate_records E (fs w !! input) f = []) pre ->
  candidate_records E (fs w !! input) fmt <> [] ->
  writable E (candidate_records E (fs w !! input) fmt) = true ->
  process_generic_sequences E input out w =
    (Ok tt,
     mkWorld (fs w)
       (<[out := (default [] (outs w !! out)
                    ++ map Fasta (candidate_records E (fs w !! input) fmt))%list]> (outs w))
       (log w ++ [InfoDetected fmt input;
                  InfoConvertedFrom (length (candidate_records E (fs w !! input) fmt)) input])
       (stdout w)).
Proof.
  intros Hlist Hpre Hne Hw. unfold process_generic_sequences, try_except, bind.
  change formats_to_try with [fasta; genbank; embl; swiss]. rewrite Hlist.
  rewrite (probe_skips E input out pre _ 0 w Hpre).
  rewrite (probe_first E input out fmt post 0 w Hne Hw).
  destruct (candidate_records E (fs w !! input) fmt) as [| r records]; [congruence |].
  cbn [length Nat.add Nat.eqb]. unfold logger. f_equal.
  apply world_eq; simpl; try reflexivity. rewrite <- app_assoc. reflexivity.
Qed.

(** The sample file that reads as FASTA (one record) and as GenBank (three
    records) is converted as FASTA, after the record an earlier entry left
    in the output. *)
Lemma prober_first_rendered_candidate_wins_witness :
  let w := mkWorld {[ "x/both.txt" := File "fasta and genbank" ]}
                   {[ "out.fasta" := [Fasta (Sample.contig "c0")] ]} [] [] in
  candidate_records Sample.env (fs w !! "x/both.txt") genbank
    = [Sample.contig "g1"; Sample.contig "g2"; Sample.contig "g3"] /\
  process_generic_sequences Sample.env "x/both.txt" "out.fasta" w =
    (Ok tt,
     mkWorld (fs w)
       {[ "out.fasta" := [Fasta (Sample.contig "c0"); Fasta (Sample.contig "f1")] ]}
       [InfoDetected fasta "x/both.txt"; InfoConvertedFrom 1 "x/both.txt"] []).
Proof.
  intros w. split; [vm_compute; reflexivity |].
  rewrite (prober_first_rendered_candidate_wins Sample.env "x/both.txt" "out.fasta" w
             [] fasta [genbank; embl; swiss]).
  - vm_compute. reflexivity.
  - reflexivity.
  - constructor.
  - vm_compute. discriminate.
  - vm_compute. reflexivity.
Defined.

(** ** The output directory *)

(** X18: a failure to make the output directory is not reported by
    [main].  Let the three checks pass, let the directory of the output
    path be missing and let one of its ancestors be there without being a
    directory.  Then [os.makedirs], which [main] calls outside every [try],
    raises; the [OSError] reaches the caller of [main] as it is, not as
    the [SystemExit] of the other failures: nothing is logged for it, no
    ERROR line is printed, nothing is made on disk and the conversion is
    not started. *)
Theorem main_output_directory_failure E args w v a :
  Bio_version E = Some v ->
  os_path_exists (input_file args) w = true ->
  endswith_any (lower (input_file args)) [".tar.gz"; ".tgz"] = true ->
  dirname (output_file args) <> "" ->
  os_path_exists (dirname (output_file args)) w = false ->
  In a (ancestors (dirname (output_file args))) ->
  os_path_exists a w = true ->
  is_directory a w = false ->
  exists path,
    main E args w =
      (Raise (OSError path),
       mkWorld (fs w) (outs w) (log w ++ [InfoBioVersion v]) (stdout w)).
Proof.
  intros Hbio Hex Hext Hne Hmissing Hin Ha Hnd.
  rewrite (main_after_validation E args w v Hbio Hex Hext). cbv zeta.
  change (os_path_exists (dirname (output_file args))
            (mkWorld (fs w) (outs w) (log w ++ [InfoBioVersion v]) (stdout w)))
    with (os_path_exists (dirname (output_file args)) w).
  rewrite Hmissing.
  destruct (String.eqb (dirname (output_file args)) "") eqn:Heq;
    [apply String.eqb_eq in Heq; contradiction |].
  cbn [negb andb]. unfold os_makedirs.
  change (os_path_exists (dirname (output_file args))
            (mkWorld (fs w) (outs w) (log w ++ [InfoBioVersion v]) (stdout w)))
    with (os_path_exists (dirname (output_file args)) w).
  rewrite Hmissing.
  set (w1 := mkWorld (fs w) (outs w) (log w ++ [InfoBioVersion v]) (stdout w)).
  destruct (List.filter (fun a0 => os_path_exists a0 w1 && negb (is_directory a0 w1))
                        (ancestors (dirname (output_file args)))) as [| a' l] eqn:Hf.
  - exfalso.
    assert (Hin' : In a (List.filter
                           (fun a0 => os_path_exists a0 w1 && negb (is_directory a0 w1))
                           (ancestors (dirname (output_file args))))).
    { apply List.filter_In. split; [exact Hin |].
      change (os_path_exists a w1) with (os_path_exists a w).
      change (is_directory a w1) with (is_directory a w).
      rewrite Ha, Hnd. reflexivity. }
    rewrite Hf in Hin'. exact Hin'.
  - exists a'. reflexivity.
Qed.

(** The output is to go below [results/run1], and [results] is a regular
    file. *)
Lemma main_output_directory_failure_witness :
  let w := mkWorld {[ "in.tar.gz" := File "tar: ten reads"; "results" := File "old notes" ]}
                   ∅ [] [] in
  exists path,
    main Sample.env (mkArgs "in.tar.gz" "results/run1/out.fasta" 20) w =
      (Raise (OSError path), mkWorld (fs w) ∅ [InfoBioVersion "1.83"] []).
Proof.
  intros w.
  apply (main_output_directory_failure Sample.env
           (mkArgs "in.tar.gz" "results/run1/out.fasta" 20) w "1.83" "results").
  - reflexivity.
  - vm_compute. reflexivity.
  - vm_compute. reflexivity.
  - vm_compute. discriminate.
  - vm_compute. reflexivity.
  - vm_compute. left. reflexivity.
  - vm_compute. reflexivity.
  - vm_compute. reflexivity.
Defined.
